(** * SolanaOrderBook: a shallow embedding of [solanaOrderBook.js]

    The class [SolanaOrderBook] is a client-side layer over the Serum SDK.
    Its methods are embedded as functions over an explicit state (the
    [marketCache] of the instance and the outside world reached through the
    SDK) in a state-and-exception monad; every awaited call of an [async]
    method is run to completion before the next one starts.  The
    [console.error] lines of the [catch] blocks are left out.

    Numbers.  Prices, sizes and quantities are JavaScript numbers.  They are
    modelled as exact rationals ([Q]); the results of unguarded divisions
    live in [num], which adds the IEEE special values [NaN] and the two
    infinities that a division by zero produces.  Rounding, overflow and the
    sign of zero are abstracted away. *)

From Stdlib Require Import QArith Qminmax Lqa ZArith List String Sorted.
From stdpp Require Import gmap strings.
Import ListNotations.

Local Open Scope Q_scope.
Local Open Scope string_scope.
Local Open Scope list_scope.

(** ** JavaScript values *)

(** The outcome of evaluating an expression or of awaiting a promise:
    a value, or a thrown [Error] carrying its [message]. *)
Inductive Res (A : Type) : Type :=
| Ok (value : A)
| Throw (message : string).
Arguments Ok {A} value.
Arguments Throw {A} message.

(** A JavaScript number: a finite value or one of the special values. *)
Inductive num : Type :=
| Fin (q : Q)
| PosInf
| NegInf
| NaN.

(** [a > b] on finite numbers. *)
Definition Qgt_bool (a b : Q) : bool := negb (Qle_bool a b).

(** [a / b] on finite numbers; the divisor is not guarded. *)
Definition jsdiv (a b : Q) : num :=
  if Qeq_bool b 0 then
    if Qeq_bool a 0 then NaN
    else if Qgt_bool a 0 then PosInf else NegInf
  else Fin (a / b).

(** [x * y]. *)
Definition num_mul (x y : num) : num :=
  let signed (inf : num) (q : Q) (flip : num) :=
    if Qeq_bool q 0 then NaN else if Qgt_bool q 0 then inf else flip in
  match x, y with
  | NaN, _ | _, NaN => NaN
  | Fin a, Fin b => Fin (a * b)
  | Fin a, PosInf | PosInf, Fin a => signed PosInf a NegInf
  | Fin a, NegInf | NegInf, Fin a => signed NegInf a PosInf
  | PosInf, PosInf | NegInf, NegInf => PosInf
  | PosInf, NegInf | NegInf, PosInf => NegInf
  end.

(** ** Order book entries *)

(** One entry of [bidItems] / [askItems] as built by [getOrderBook]. *)
Module Item.
Record t : Type := mk {
  price : Q;
  size : Q;
  orderId : string;
  side : string
}.
End Item.

(** ** estimateMarketOrderPrice *)

(** The [for ... of] loop of [estimateMarketOrderPrice], carrying the two
    loop variables; the early exit is the [break]. *)
Fixpoint walkOrders (orders : list Item.t) (remainingSize totalCost : Q)
  : Q * Q :=
  match orders with
  | [] => (remainingSize, totalCost)
  | order :: rest =>
      let sizeToTake := Qmin remainingSize (Item.size order) in
      let totalCost := totalCost + sizeToTake * Item.price order in
      let remainingSize := remainingSize - sizeToTake in
      if Qle_bool remainingSize 0 then (remainingSize, totalCost)
      else walkOrders rest remainingSize totalCost
  end.

Definition insufficientLiquidity : string :=
  "Insufficient liquidity to execute market order of this size".

Definition estimateMarketOrderPrice
    (orders : list Item.t) (size : Q) (side : string) : Res num :=
  let '(remainingSize, totalCost) := walkOrders orders size 0 in
  if Qgt_bool remainingSize 0 then Throw insufficientLiquidity
  else Ok (jsdiv totalCost size).

(** What the specification says of the estimate, to compare the loop
    with: the size on offer in a list, the levels a request consumes
    walking the list front to back (each with the size taken from it,
    [min(remaining, order.size)], while something remains to be filled),
    and the cost and size of what was consumed. *)
Definition totalSize (orders : list Item.t) : Q :=
  fold_right (fun order acc => Item.size order + acc) 0 orders.




(** ** Records exchanged with the caller *)

(** The snapshot returned by [getOrderBook]. *)
Module OrderBook.
Record t : Type := mk {
  market : string;
  bids : list Item.t;
  asks : list Item.t;
  spread : Q;
  spreadPercentage : Q;
  timestamp : Z
}.
End OrderBook.

(** A fill as [market.loadFills] delivers it. *)
Module Fill.
Record t : Type := mk {
  price : Q;
  size : Q;
  side : string;
  eventTimestamp : Z;
  feeCost : Q
}.
End Fill.

(** A trade as [getRecentTrades] formats it.  [time] is the instant, in
    milliseconds, that the ISO string of the source denotes:
    [new Date(trade.time).getTime()] gives it back. *)
Module Trade.
Record t : Type := mk {
  price : Q;
  size : Q;
  side : string;
  time : Z;
  feeCost : Q;
  marketAddress : string
}.
End Trade.

(** The object returned by [getMarketStats]. *)
Module Stats.
Record t : Type := mk {
  marketAddress : string;
  lastPrice : Q;
  priceChange : num;
  volume24h : Q;
  high24h : Q;
  low24h : Q;
  bestBid : Q;
  bestAsk : Q;
  spread : Q;
  spreadPercentage : Q;
  baseVolume24h : Q;
  quoteVolume24h : Q;
  updated : Z
}.
End Stats.

(** The object a mutating operation resolves to: [{ success: true, txid,
    ... }] with the echoed parameters, or [{ success: false, error }]. *)
Inductive Result (P : Type) : Type :=
| Success (txid : string) (echo : P)
| Failure (error : string).
Arguments Success {P} txid echo.
Arguments Failure {P} error.


Module Placed.
Record t : Type := mk {
  market : string;
  side : string;
  price : num;
  size : num;
  orderType : string;
  clientId : option string
}.
End Placed.

Module Cancelled.
Record t : Type := mk {
  market : string;
  orderId : string
}.
End Cancelled.

Module Settled.
Record t : Type := mk {
  market : string
}.
End Settled.

(** Truthiness of an optional string ([undefined] and [''] are falsy). *)
Definition truthy (s : option string) : bool :=
  match s with
  | Some s => negb (String.eqb s "")
  | None => false
  end.

(** [a || b] on optional strings. *)
Definition orElse (a : option string) (b : string) : string :=
  match a with
  | Some s => if String.eqb s "" then b else s
  | None => b
  end.

(** ** getOrderBook: the snapshot built from the two L2 lists *)

Definition bestPrice (items : list Item.t) : Q :=
  match items with
  | first :: _ => Item.price first
  | [] => 0
  end.

(** Lines 74-109 of the source, after the two sides have been loaded. *)
Definition orderBookOf (marketAddress : string)
    (bidsL2 asksL2 : list (Q * Q * string)) (timestamp : Z) : OrderBook.t :=
  let bidItems :=
    map (fun '(price, size, orderId) => Item.mk price size orderId "buy")
        bidsL2 in
  let askItems :=
    map (fun '(price, size, orderId) => Item.mk price size orderId "sell")
        asksL2 in
  let bestBid := bestPrice bidItems in
  let bestAsk := bestPrice askItems in
  let spread := bestAsk - bestBid in
  let spreadPercentage :=
    if Qgt_bool bestBid 0 then (spread / bestBid) * 100 else 0 in
  OrderBook.mk marketAddress bidItems askItems spread spreadPercentage
               timestamp.

(** ** getMarketStats: the statistics computed from the recent trades *)

Definition oneDay : Z := 24 * 60 * 60 * 1000.

(** [new Date(trade.time).getTime() >= oneDayAgo]. *)
Definition inWindow (oneDayAgo : Z) (trade : Trade.t) : bool :=
  (oneDayAgo <=? Trade.time trade)%Z.

(** [Math.max(...prices)] and [Math.min(...prices)] of a non-empty list. *)
Definition maxOf (first : Q) (others : list Q) : Q :=
  fold_left Qmax others first.
Definition minOf (first : Q) (others : list Q) : Q :=
  fold_left Qmin others first.

(** Lines 521-566 of the source: [now] is the value of [Date.now()],
    [updated] the instant of the closing [new Date()]. *)
Definition marketStats (marketAddress : string) (orderBook : OrderBook.t)
    (recentTrades : list Trade.t) (now updated : Z) : Stats.t :=
  let lastPrice :=
    match recentTrades with
    | first :: _ => Trade.price first
    | [] => 0
    end in
  let oneDayAgo := (now - oneDay)%Z in
  let oldestTradeInWindow :=
    last (List.filter (inWindow oneDayAgo) recentTrades) in
  let priceChange :=
    match oldestTradeInWindow with
    | Some oldest =>
        num_mul (jsdiv (lastPrice - Trade.price oldest) (Trade.price oldest))
                (Fin 100)
    | None => Fin 0
    end in
  let volume24h :=
    fold_left (fun total trade => total + Trade.price trade * Trade.size trade)
              (List.filter (inWindow oneDayAgo) recentTrades) 0 in
  let trades24h := List.filter (inWindow oneDayAgo) recentTrades in
  let high24h :=
    match map Trade.price trades24h with
    | p :: ps => maxOf p ps
    | [] => lastPrice
    end in
  let low24h :=
    match map Trade.price trades24h with
    | p :: ps => minOf p ps
    | [] => lastPrice
    end in
  Stats.mk marketAddress lastPrice priceChange volume24h high24h low24h
    (bestPrice (OrderBook.bids orderBook))
    (bestPrice (OrderBook.asks orderBook))
    (OrderBook.spread orderBook)
    (OrderBook.spreadPercentage orderBook)
    (fold_left (fun total trade => total + Trade.size trade) trades24h 0)
    volume24h
    updated.

(** What the specification says of the volume, to compare the
    filter-and-reduce of [marketStats] with: the sum over all the trades
    of [price * size] for a trade whose time is within the 24 hours before
    [now], and of nothing for the others. *)
Fixpoint volumeInWindow (now : Z) (trades : list Trade.t) : Q :=
  match trades with
  | [] => 0
  | trade :: rest =>
      (if (now - 86400000 <=? Trade.time trade)%Z
       then Trade.price trade * Trade.size trade
       else 0)
      + volumeInWindow now rest
  end.

(** A list of trades that has the most recent first. *)
Definition mostRecentFirst (trades : list Trade.t) : Prop :=
  StronglySorted
    (fun earlier later => (Trade.time later <= Trade.time earlier)%Z) trades.

(** ** Parameters of the operations and arguments handed to the SDK *)

(** An [OpenOrders] account, of which the module reads the address only
    ([settleFunds] builds one as [{ address: ... }]). *)
Module OpenOrdersAccount.
Record t (PublicKey : Type) : Type := mk { address : PublicKey }.
Arguments mk {PublicKey} address.
Arguments address {PublicKey} _.
End OpenOrdersAccount.

(** The argument of [market.makePlaceOrderInstruction]. *)
Module PlaceOrderArgs.
Record t (PublicKey BN : Type) : Type := mk {
  owner : PublicKey;
  payer : PublicKey;
  side : string;
  price : BN;
  size : BN;
  orderType : string;
  clientId : option BN;
  openOrdersAddressKey : PublicKey;
  feeDiscountPubkey : option PublicKey;
  selfTradeBehavior : string
}.
Arguments mk {PublicKey BN}.
Arguments owner {PublicKey BN} _.
Arguments payer {PublicKey BN} _.
Arguments side {PublicKey BN} _.
Arguments price {PublicKey BN} _.
Arguments size {PublicKey BN} _.
Arguments orderType {PublicKey BN} _.
Arguments clientId {PublicKey BN} _.
Arguments openOrdersAddressKey {PublicKey BN} _.
Arguments feeDiscountPubkey {PublicKey BN} _.
Arguments selfTradeBehavior {PublicKey BN} _.
End PlaceOrderArgs.

(** The argument of [market.makeCancelOrderInstruction]. *)
Module CancelOrderArgs.
Record t (PublicKey BN : Type) : Type := mk {
  owner : PublicKey;
  openOrders : PublicKey;
  orderId : BN;
  side : string
}.
Arguments mk {PublicKey BN}.
End CancelOrderArgs.

(** An order as [market.loadOrdersForOwner] delivers it. *)
Module Order.
Record t (BN : Type) : Type := mk {
  orderId : BN;
  price : Q;
  size : Q;
  side : string;
  clientId : option BN;
  feeTier : Z
}.
Arguments mk {BN}.
Arguments orderId {BN} _.
Arguments price {BN} _.
Arguments size {BN} _.
Arguments side {BN} _.
Arguments clientId {BN} _.
Arguments feeTier {BN} _.
End Order.

(** An entry of the array returned by [getOpenOrders]. *)
Module OpenOrder.
Record t : Type := mk {
  orderId : string;
  marketAddress : string;
  price : Q;
  size : Q;
  side : string;
  openOrdersAddress : string;
  clientId : option string;
  feeTier : Z
}.
End OpenOrder.

(** [config] of the constructor. *)
Module Config.
Record t : Type := mk {
  rpcEndpoint : option string;
  serumProgramId : option string;
  feeDiscountPubkey : option string
}.
End Config.

(** [params] of [placeLimitOrder]; a field left out is [None]. *)
Module LimitOrder.
Record t (Wallet : Type) : Type := mk {
  marketAddress : string;
  wallet : Wallet;
  side : string;
  price : num;
  size : num;
  orderType : option string;
  clientId : option string;
  selfTradeBehavior : option string
}.
Arguments mk {Wallet}.
Arguments marketAddress {Wallet} _.
Arguments wallet {Wallet} _.
Arguments side {Wallet} _.
Arguments price {Wallet} _.
Arguments size {Wallet} _.
Arguments orderType {Wallet} _.
Arguments clientId {Wallet} _.
Arguments selfTradeBehavior {Wallet} _.
End LimitOrder.

(** [params] of [placeMarketOrder]; the requested [size] is a finite
    number. *)
Module MarketOrder.
Record t (Wallet : Type) : Type := mk {
  marketAddress : string;
  wallet : Wallet;
  side : string;
  size : Q;
  orderType : option string;
  clientId : option string
}.
Arguments mk {Wallet}.
Arguments marketAddress {Wallet} _.
Arguments wallet {Wallet} _.
Arguments side {Wallet} _.
Arguments size {Wallet} _.
Arguments orderType {Wallet} _.
Arguments clientId {Wallet} _.
End MarketOrder.

(** [params] of [cancelOrder]. *)
Module Cancel.
Record t (Wallet : Type) : Type := mk {
  marketAddress : string;
  wallet : Wallet;
  orderId : string;
  side : string;
  openOrdersAddress : option string
}.
Arguments mk {Wallet}.
Arguments marketAddress {Wallet} _.
Arguments wallet {Wallet} _.
Arguments orderId {Wallet} _.
Arguments side {Wallet} _.
Arguments openOrdersAddress {Wallet} _.
End Cancel.

(** [params] of [settleFunds]. *)
Module Settle.
Record t (Wallet : Type) : Type := mk {
  marketAddress : string;
  wallet : Wallet;
  openOrdersAddress : option string
}.
Arguments mk {Wallet}.
Arguments marketAddress {Wallet} _.
Arguments wallet {Wallet} _.
Arguments openOrdersAddress {Wallet} _.
End Settle.

(** [params] of [getOpenOrders]. *)
Module OpenOrdersQuery.
Record t : Type := mk {
  marketAddress : string;
  walletAddress : string
}.
End OpenOrdersQuery.

(** ** The SDK and the outside world *)

(** What the module imports from [@solana/web3.js], [@project-serum/serum]
    and [bn.js].  Nothing is known about these libraries but their
    interface: the types are abstract, a call that takes the connection
    reaches the RPC node and moves the world, and every call that can fail
    may throw.  The first [string] of such a call is [this.connection]. *)
Record Sdk : Type := {
  World : Type;
  Market : Type;
  Orderbook : Type;
  PublicKey : Type;
  Wallet : Type;
  Instruction : Type;
  SettleTransaction : Type;
  BN : Type;

  SERUM_PROGRAM_ID : PublicKey;
  new_PublicKey : string -> Res PublicKey;
  PublicKey_toString : PublicKey -> string;
  new_BN : string -> Res BN;
  BN_toString : BN -> string;
  publicKey : Wallet -> PublicKey;
  Date_now : World -> Z;

  Market_load :
    string -> PublicKey -> PublicKey -> World -> Res Market * World;
  Market_address : Market -> PublicKey;
  loadBids : Market -> string -> World -> Res Orderbook * World;
  loadAsks : Market -> string -> World -> Res Orderbook * World;
  getL2 : Orderbook -> Z -> list (Q * Q * string);
  findOpenOrdersAccountsForOwner :
    Market -> string -> PublicKey ->
    World -> Res (list (OpenOrdersAccount.t PublicKey)) * World;
  makeCreateAccountTransaction :
    string -> PublicKey -> PublicKey -> PublicKey ->
    World -> Res Instruction * World;
  sendTransaction :
    string -> list Instruction -> list Wallet -> bool -> string ->
    World -> Res string * World;
  confirmTransaction : string -> string -> World -> Res unit * World;
  priceNumberToLots : Market -> num -> Res BN;
  baseSizeNumberToLots : Market -> num -> Res BN;
  makePlaceOrderInstruction :
    Market -> PlaceOrderArgs.t PublicKey BN -> Res Instruction;
  makeCancelOrderInstruction :
    Market -> CancelOrderArgs.t PublicKey BN -> Res Instruction;
  makeSettleFundsTransaction :
    Market -> string -> OpenOrdersAccount.t PublicKey ->
    PublicKey -> PublicKey -> World -> Res SettleTransaction * World;
  instructions : SettleTransaction -> list Instruction;
  loadOrdersForOwner :
    Market -> string -> PublicKey -> World -> Res (list (Order.t BN)) * World;
  loadFills : Market -> string -> Z -> World -> Res (list Fill.t) * World
}.

(** ** The class SolanaOrderBook *)

Section SolanaOrderBook.

Context (sdk : Sdk).

(** The fields of an instance; [feeDiscountPubkey] is [null] when the
    configuration gives none. *)
Record SolanaOrderBook : Type := mkSolanaOrderBook {
  connection : string;
  marketCache : gmap string (Market sdk);
  marketProgramId : PublicKey sdk;
  feeDiscountPubkey : option (PublicKey sdk)
}.

(** The calls an instance issues: the requests sent through the
    connection and the instructions it asks the SDK to build. *)
Inductive Call : Type :=
| CallMarketLoad (conn : string) (marketPubkey programId : PublicKey sdk)
| CallLoadBids (market : Market sdk) (conn : string)
| CallLoadAsks (market : Market sdk) (conn : string)
| CallFindOpenOrdersAccountsForOwner
    (market : Market sdk) (conn : string) (owner : PublicKey sdk)
| CallMakeCreateAccountTransaction
    (conn : string) (marketAddress owner programId : PublicKey sdk)
| CallSendTransaction
    (conn : string) (transaction : list (Instruction sdk))
    (signers : list (Wallet sdk)) (skipPreflight : bool)
    (preflightCommitment : string)
| CallConfirmTransaction (conn : string) (txid : string)
| CallMakePlaceOrderInstruction
    (market : Market sdk)
    (args : PlaceOrderArgs.t (PublicKey sdk) (BN sdk))
| CallMakeCancelOrderInstruction
    (market : Market sdk)
    (args : CancelOrderArgs.t (PublicKey sdk) (BN sdk))
| CallMakeSettleFundsTransaction
    (market : Market sdk) (conn : string)
    (openOrders : OpenOrdersAccount.t (PublicKey sdk))
    (baseWallet quoteWallet : PublicKey sdk)
| CallLoadOrdersForOwner
    (market : Market sdk) (conn : string) (owner : PublicKey sdk)
| CallLoadFills (market : Market sdk) (conn : string) (limit : Z).

(** The state an operation runs in: the instance, the world, and the
    calls issued so far, oldest first. *)
Record State : Type := mkState {
  this : SolanaOrderBook;
  world : World sdk;
  calls : list Call
}.

(** *** The monad of the methods *)

(** An operation takes a state to an outcome and a state; for an [async]
    method, [Ok] is the value its promise resolves to and [Throw] the
    error it rejects with. *)
Definition M (A : Type) : Type := State -> Res A * State.

Definition ret {A : Type} (a : A) : M A := fun st => (Ok a, st).

Definition throw {A : Type} (message : string) : M A :=
  fun st => (Throw message, st).

Definition bind {A B : Type} (m : M A) (k : A -> M B) : M B :=
  fun st =>
    match m st with
    | (Ok a, st') => k a st'
    | (Throw message, st') => (Throw message, st')
    end.

(** [try { body } catch (error) { handler(error.message) }]. *)
Definition tryCatch {A : Type} (body : M A) (handler : string -> M A)
  : M A :=
  fun st =>
    match body st with
    | (Ok a, st') => (Ok a, st')
    | (Throw message, st') => handler message st'
    end.

(** An SDK function that does not reach the node. *)
Definition liftRes {A : Type} (r : Res A) : M A := fun st => (r, st).

(** A request through the connection. *)
Definition rpc {A : Type} (call : Call)
    (request : World sdk -> Res A * World sdk) : M A :=
  fun st =>
    let (r, w) := request (world st) in
    (r, mkState (this st) w (calls st ++ [call])).

(** An instruction built by the SDK. *)
Definition build {A : Type} (call : Call) (r : Res A) : M A :=
  fun st => (r, mkState (this st) (world st) (calls st ++ [call])).

Definition getThis : M SolanaOrderBook := fun st => (Ok (this st), st).

(** [this.marketCache.set(marketAddress, market)]: the instance it
    leaves behind, and the statement. *)
Definition cached (marketAddress : string) (market : Market sdk)
    (self : SolanaOrderBook) : SolanaOrderBook :=
  mkSolanaOrderBook (connection self)
    (<[marketAddress := market]> (marketCache self))
    (marketProgramId self) (feeDiscountPubkey self).

Definition marketCache_set (marketAddress : string) (market : Market sdk)
  : M unit :=
  fun st =>
    (Ok tt,
     mkState (cached marketAddress market (this st)) (world st) (calls st)).

(** [Date.now()], also the instant of [new Date()]. *)
Definition now : M Z := fun st => (Ok (Date_now sdk (world st)), st).

(** [Promise.all([a, b])]: both requests are issued, in this order; the
    first failure is the outcome. *)
Definition promiseAll2 {A B : Type} (a : M A) (b : M B) : M (A * B) :=
  fun st =>
    let (ra, st1) := a st in
    let (rb, st2) := b st1 in
    match ra, rb with
    | Ok x, Ok y => (Ok (x, y), st2)
    | Throw message, _ => (Throw message, st2)
    | Ok _, Throw message => (Throw message, st2)
    end.

Notation "x <- c1 ;; c2" := (bind c1 (fun x => c2))
  (at level 100, c1 at next level, right associativity).

(** A [for ... of] loop whose body awaits, collecting what each round
    contributes. *)
Fixpoint forEach {A B : Type} (body : A -> M B) (items : list A)
  : M (list B) :=
  match items with
  | [] => ret []
  | item :: rest =>
      b <- body item;;
      bs <- forEach body rest;;
      ret (b :: bs)
  end.

(** [accounts[0].address]. *)
Definition firstAddress
    (accounts : list (OpenOrdersAccount.t (PublicKey sdk)))
  : M (PublicKey sdk) :=
  match accounts with
  | account :: _ => ret (OpenOrdersAccount.address account)
  | [] => throw "Cannot read properties of undefined (reading 'address')"
  end.

(** *** constructor *)

Definition constructor (config : Config.t) : Res SolanaOrderBook :=
  let endpoint :=
    orElse (Config.rpcEndpoint config)
           "https://api.mainnet-beta.solana.com" in
  let programId :=
    if truthy (Config.serumProgramId config)
    then new_PublicKey sdk (orElse (Config.serumProgramId config) "")
    else Ok (SERUM_PROGRAM_ID sdk) in
  match programId with
  | Throw message => Throw message
  | Ok programId =>
      if truthy (Config.feeDiscountPubkey config) then
        match new_PublicKey sdk
                (orElse (Config.feeDiscountPubkey config) "") with
        | Throw message => Throw message
        | Ok fee => Ok (mkSolanaOrderBook endpoint ∅ programId (Some fee))
        end
      else Ok (mkSolanaOrderBook endpoint ∅ programId None)
  end.

(** *** getMarket *)

Definition getMarket (marketAddress : string) : M (Market sdk) :=
  tryCatch
    (self <- getThis;;
     match marketCache self !! marketAddress with
     | Some market => ret market
     | None =>
         marketPubkey <- liftRes (new_PublicKey sdk marketAddress);;
         market <-
           rpc (CallMarketLoad (connection self) marketPubkey
                  (marketProgramId self))
               (Market_load sdk (connection self) marketPubkey
                  (marketProgramId self));;
         _ <- marketCache_set marketAddress market;;
         ret market
     end)
    (fun message => throw ("Failed to load market: " ++ message)%string).

(** *** getOrderBook *)

Definition getOrderBook (marketAddress : string) (depth : option Z)
  : M OrderBook.t :=
  let depth := default 20%Z depth in
  tryCatch
    (market <- getMarket marketAddress;;
     self <- getThis;;
     sides <-
       promiseAll2
         (rpc (CallLoadBids market (connection self))
              (loadBids sdk market (connection self)))
         (rpc (CallLoadAsks market (connection self))
              (loadAsks sdk market (connection self)));;
     timestamp <- now;;
     ret (orderBookOf marketAddress
            (getL2 sdk (fst sides) depth) (getL2 sdk (snd sides) depth)
            timestamp))
    (fun message => throw ("Failed to fetch order book: " ++ message)%string).

(** *** placeLimitOrder *)

Definition placeLimitOrder (params : LimitOrder.t (Wallet sdk))
  : M (Result Placed.t) :=
  let marketAddress := LimitOrder.marketAddress params in
  let wallet := LimitOrder.wallet params in
  let side := LimitOrder.side params in
  let price := LimitOrder.price params in
  let size := LimitOrder.size params in
  let orderType := default "limit" (LimitOrder.orderType params) in
  let clientId := LimitOrder.clientId params in
  let selfTradeBehavior :=
    default "decrementTake" (LimitOrder.selfTradeBehavior params) in
  tryCatch
    (market <- getMarket marketAddress;;
     self <- getThis;;
     found <-
       rpc (CallFindOpenOrdersAccountsForOwner market (connection self)
              (publicKey sdk wallet))
           (findOpenOrdersAccountsForOwner sdk market (connection self)
              (publicKey sdk wallet));;
     openOrdersAccounts <-
       match found with
       | [] =>
           instruction <-
             rpc (CallMakeCreateAccountTransaction (connection self)
                    (Market_address sdk market) (publicKey sdk wallet)
                    (marketProgramId self))
                 (makeCreateAccountTransaction sdk (connection self)
                    (Market_address sdk market) (publicKey sdk wallet)
                    (marketProgramId self));;
           txid <-
             rpc (CallSendTransaction (connection self) [instruction]
                    [wallet] false "processed")
                 (sendTransaction sdk (connection self) [instruction]
                    [wallet] false "processed");;
           _ <-
             rpc (CallConfirmTransaction (connection self) txid)
                 (confirmTransaction sdk (connection self) txid);;
           rpc (CallFindOpenOrdersAccountsForOwner market (connection self)
                  (publicKey sdk wallet))
               (findOpenOrdersAccountsForOwner sdk market (connection self)
                  (publicKey sdk wallet))
       | _ :: _ => ret found
       end;;
     openOrdersAddress <- firstAddress openOrdersAccounts;;
     priceLots <- liftRes (priceNumberToLots sdk market price);;
     sizeLots <- liftRes (baseSizeNumberToLots sdk market size);;
     clientIdBN <-
       (if truthy clientId
        then bn <- liftRes (new_BN sdk (orElse clientId ""));; ret (Some bn)
        else ret None);;
     let args :=
       PlaceOrderArgs.mk
         (publicKey sdk wallet)
         (if String.eqb side "buy" then publicKey sdk wallet
          else openOrdersAddress)
         side priceLots sizeLots orderType clientIdBN openOrdersAddress
         (feeDiscountPubkey self) selfTradeBehavior in
     instruction <-
       build (CallMakePlaceOrderInstruction market args)
             (makePlaceOrderInstruction sdk market args);;
     txid <-
       rpc (CallSendTransaction (connection self) [instruction] [wallet]
              false "confirmed")
           (sendTransaction sdk (connection self) [instruction] [wallet]
              false "confirmed");;
     ret (Success txid
            (Placed.mk marketAddress side price size orderType
               (if truthy clientId then clientId else None))))
    (fun message => ret (Failure message)).

(** *** placeMarketOrder *)

Definition placeMarketOrder (params : MarketOrder.t (Wallet sdk))
  : M (Result Placed.t) :=
  let marketAddress := MarketOrder.marketAddress params in
  let wallet := MarketOrder.wallet params in
  let side := MarketOrder.side params in
  let size := MarketOrder.size params in
  let orderType := default "ioc" (MarketOrder.orderType params) in
  let clientId := MarketOrder.clientId params in
  tryCatch
    (market <- getMarket marketAddress;;
     orderBook <- getOrderBook marketAddress None;;
     estimatedPrice <-
       liftRes
         (if String.eqb side "buy"
          then estimateMarketOrderPrice (OrderBook.asks orderBook) size side
          else estimateMarketOrderPrice (OrderBook.bids orderBook) size side);;
     placeLimitOrder
       (LimitOrder.mk marketAddress wallet side
          (num_mul estimatedPrice (Fin (105 # 100))) (Fin size)
          (Some orderType) clientId None))
    (fun message => ret (Failure message)).

(** *** cancelOrder *)

Definition cancelOrder (params : Cancel.t (Wallet sdk))
  : M (Result Cancelled.t) :=
  let marketAddress := Cancel.marketAddress params in
  let wallet := Cancel.wallet params in
  let orderId := Cancel.orderId params in
  let side := Cancel.side params in
  let openOrdersAddress := Cancel.openOrdersAddress params in
  tryCatch
    (market <- getMarket marketAddress;;
     self <- getThis;;
     openOrdersAccount <-
       (if truthy openOrdersAddress
        then liftRes (new_PublicKey sdk (orElse openOrdersAddress ""))
        else
          found <-
            rpc (CallFindOpenOrdersAccountsForOwner market (connection self)
                   (publicKey sdk wallet))
                (findOpenOrdersAccountsForOwner sdk market (connection self)
                   (publicKey sdk wallet));;
          firstAddress found);;
     orderIdBN <- liftRes (new_BN sdk orderId);;
     let args :=
       CancelOrderArgs.mk (publicKey sdk wallet) openOrdersAccount
         orderIdBN side in
     instruction <-
       build (CallMakeCancelOrderInstruction market args)
             (makeCancelOrderInstruction sdk market args);;
     txid <-
       rpc (CallSendTransaction (connection self) [instruction] [wallet]
              false "confirmed")
           (sendTransaction sdk (connection self) [instruction] [wallet]
              false "confirmed");;
     ret (Success txid (Cancelled.mk marketAddress orderId)))
    (fun message => ret (Failure message)).

(** *** settleFunds *)

(** [makeSettleFundsTransaction(...).instructions[0]], handed to
    [transaction.add], which throws on [undefined]. *)
Definition settleInstruction (market : Market sdk) (conn : string)
    (wallet : Wallet sdk)
    (openOrders : OpenOrdersAccount.t (PublicKey sdk))
  : M (Instruction sdk) :=
  settle <-
    rpc (CallMakeSettleFundsTransaction market conn openOrders
           (publicKey sdk wallet) (publicKey sdk wallet))
        (makeSettleFundsTransaction sdk market conn openOrders
           (publicKey sdk wallet) (publicKey sdk wallet));;
  match instructions sdk settle with
  | instruction :: _ => ret instruction
  | [] =>
      throw
        "Cannot use 'in' operator to search for 'instructions' in undefined"
  end.

Definition settleFunds (params : Settle.t (Wallet sdk))
  : M (Result Settled.t) :=
  let marketAddress := Settle.marketAddress params in
  let wallet := Settle.wallet params in
  let openOrdersAddress := Settle.openOrdersAddress params in
  tryCatch
    (market <- getMarket marketAddress;;
     self <- getThis;;
     openOrdersAccounts <-
       (if truthy openOrdersAddress
        then
          address <-
            liftRes (new_PublicKey sdk (orElse openOrdersAddress ""));;
          ret [OpenOrdersAccount.mk address]
        else
          rpc (CallFindOpenOrdersAccountsForOwner market (connection self)
                 (publicKey sdk wallet))
              (findOpenOrdersAccountsForOwner sdk market (connection self)
                 (publicKey sdk wallet)));;
     match openOrdersAccounts with
     | [] => ret (Failure "No open orders account found")
     | _ :: _ =>
         transaction <-
           forEach (settleInstruction market (connection self) wallet)
                   openOrdersAccounts;;
         txid <-
           rpc (CallSendTransaction (connection self) transaction [wallet]
                  false "confirmed")
               (sendTransaction sdk (connection self) transaction [wallet]
                  false "confirmed");;
         ret (Success txid (Settled.mk marketAddress))
     end)
    (fun message => ret (Failure message)).

(** *** getOpenOrders *)

Definition formatOpenOrder (marketAddress : string)
    (account : OpenOrdersAccount.t (PublicKey sdk))
    (order : Order.t (BN sdk)) : OpenOrder.t :=
  OpenOrder.mk
    (BN_toString sdk (Order.orderId order))
    marketAddress
    (Order.price order)
    (Order.size order)
    (Order.side order)
    (PublicKey_toString sdk (OpenOrdersAccount.address account))
    (option_map (BN_toString sdk) (Order.clientId order))
    (Order.feeTier order).

Definition getOpenOrders (params : OpenOrdersQuery.t)
  : M (list OpenOrder.t) :=
  let marketAddress := OpenOrdersQuery.marketAddress params in
  let walletAddress := OpenOrdersQuery.walletAddress params in
  tryCatch
    (market <- getMarket marketAddress;;
     self <- getThis;;
     walletPublicKey <- liftRes (new_PublicKey sdk walletAddress);;
     openOrdersAccounts <-
       rpc (CallFindOpenOrdersAccountsForOwner market (connection self)
              walletPublicKey)
           (findOpenOrdersAccountsForOwner sdk market (connection self)
              walletPublicKey);;
     batches <-
       forEach
         (fun account =>
            orders <-
              rpc (CallLoadOrdersForOwner market (connection self)
                     walletPublicKey)
                  (loadOrdersForOwner sdk market (connection self)
                     walletPublicKey);;
            ret (map (formatOpenOrder marketAddress account) orders))
         openOrdersAccounts;;
     ret (concat batches))
    (fun message => throw ("Failed to fetch open orders: " ++ message)%string).

(** *** getRecentTrades *)

Definition formatTrade (marketAddress : string) (fill : Fill.t) : Trade.t :=
  Trade.mk (Fill.price fill) (Fill.size fill) (Fill.side fill)
    (Fill.eventTimestamp fill * 1000)%Z (Fill.feeCost fill) marketAddress.

Definition getRecentTrades (marketAddress : string) (limit : option Z)
  : M (list Trade.t) :=
  let limit := default 100%Z limit in
  tryCatch
    (market <- getMarket marketAddress;;
     self <- getThis;;
     fills <-
       rpc (CallLoadFills market (connection self) limit)
           (loadFills sdk market (connection self) limit);;
     ret (map (formatTrade marketAddress) fills))
    (fun message =>
       throw ("Failed to fetch recent trades: " ++ message)%string).

(** *** getMarketStats *)

Definition getMarketStats (marketAddress : string) : M Stats.t :=
  tryCatch
    (market <- getMarket marketAddress;;
     orderBook <- getOrderBook marketAddress None;;
     recentTrades <- getRecentTrades marketAddress (Some 100%Z);;
     oneDayAgoBase <- now;;
     updated <- now;;
     ret (marketStats marketAddress orderBook recentTrades oneDayAgoBase
            updated))
    (fun message => throw ("Failed to fetch market stats: " ++ message)%string).

(** *** The methods as invocations *)

(** A call of one of the [async] methods of an instance, with its
    arguments. *)
Inductive Operation : Type :=
| OpGetMarket (marketAddress : string)
| OpGetOrderBook (marketAddress : string) (depth : option Z)
| OpPlaceLimitOrder (params : LimitOrder.t (Wallet sdk))
| OpPlaceMarketOrder (params : MarketOrder.t (Wallet sdk))
| OpCancelOrder (params : Cancel.t (Wallet sdk))
| OpSettleFunds (params : Settle.t (Wallet sdk))
| OpGetOpenOrders (params : OpenOrdersQuery.t)
| OpGetRecentTrades (marketAddress : string) (limit : option Z)
| OpGetMarketStats (marketAddress : string).

(** The state a call leaves behind, whatever it resolves to. *)
Definition perform (op : Operation) (st : State) : State :=
  match op with
  | OpGetMarket marketAddress => snd (getMarket marketAddress st)
  | OpGetOrderBook marketAddress depth =>
      snd (getOrderBook marketAddress depth st)
  | OpPlaceLimitOrder params => snd (placeLimitOrder params st)
  | OpPlaceMarketOrder params => snd (placeMarketOrder params st)
  | OpCancelOrder params => snd (cancelOrder params st)
  | OpSettleFunds params => snd (settleFunds params st)
  | OpGetOpenOrders params => snd (getOpenOrders params st)
  | OpGetRecentTrades marketAddress limit =>
      snd (getRecentTrades marketAddress limit st)
  | OpGetMarketStats marketAddress => snd (getMarketStats marketAddress st)
  end.

(** A sequence of calls, each awaited before the next. *)
Definition performAll (ops : list Operation) (st : State) : State :=
  fold_left (fun st op => perform op st) ops st.

End SolanaOrderBook.

Arguments ret {sdk A} a.
Arguments throw {sdk A} message.
Arguments bind {sdk A B} m k.
Arguments tryCatch {sdk A} body handler.
Arguments liftRes {sdk A} r.
Arguments rpc {sdk A} call request.
Arguments build {sdk A} call r.
Arguments promiseAll2 {sdk A B} a b.
Arguments forEach {sdk A B} body items.
Arguments mkState {sdk} this world calls.
Arguments this {sdk} _.
Arguments world {sdk} _.
Arguments calls {sdk} _.
Arguments mkSolanaOrderBook {sdk}.
Arguments connection {sdk} _.
Arguments marketCache {sdk} _.
Arguments marketProgramId {sdk} _.
Arguments feeDiscountPubkey {sdk} _.
Arguments cached {sdk} marketAddress market self.

(** ** Observing a run *)

(** The calls that only read from the node. *)
Definition isRead {sdk : Sdk} (call : Call sdk) : bool :=
  match call with
  | CallMarketLoad _ _ _ _
  | CallLoadBids _ _ _
  | CallLoadAsks _ _ _
  | CallFindOpenOrdersAccountsForOwner _ _ _ _
  | CallLoadOrdersForOwner _ _ _ _
  | CallLoadFills _ _ _ _ => true
  | _ => false
  end.

(** [extends allowed st st']: from [st] to [st'] no entry of the market
    cache was removed or replaced, and the calls issued in between all
    satisfy [allowed]. *)
Definition extends {sdk : Sdk} (allowed : Call sdk -> Prop)
    (st st' : State sdk) : Prop :=
  marketCache (this st) ⊆ marketCache (this st')
  /\ exists issued,
       calls st' = (calls st ++ issued) /\ Forall allowed issued.

(** No restriction on the calls. *)
Definition anyCall {sdk : Sdk} (call : Call sdk) : Prop := True.

(** An operation respects a relation between states when each of its runs,
    whatever the outcome, relates the state it starts in to the state it
    ends in. *)
Definition respects {sdk : Sdk} {A : Type}
    (R : State sdk -> State sdk -> Prop) (m : M sdk A) : Prop :=
  forall st r st', m st = (r, st') -> R st st'.

(** The side of the book a market order is priced against: the asks for
    a buy, the bids otherwise. *)
Definition opposing (side : string) (orderBook : OrderBook.t)
  : list Item.t :=
  if String.eqb side "buy" then OrderBook.asks orderBook
  else OrderBook.bids orderBook.

(** ** Vocabulary of the further properties *)



(** The methods that only query: everything but the four that place,
    cancel or settle. *)
Definition isQuery {sdk : Sdk} (op : Operation sdk) : bool :=
  match op with
  | OpGetMarket _ _
  | OpGetOrderBook _ _ _
  | OpGetOpenOrders _ _
  | OpGetRecentTrades _ _ _
  | OpGetMarketStats _ _ => true
  | _ => false
  end.


(** The client id handed to the SDK: a [BN] made from a truthy
    [clientId], nothing otherwise. *)
Definition clientIdArgument (sdk : Sdk) (clientId : option string)
    (bn : option (BN sdk)) : Prop :=
  if truthy clientId
  then exists made, new_BN sdk (orElse clientId "") = Ok made /\ bn = Some made
  else bn = None.

(** One round of the loop of [settleFunds]. *)
Definition settled {sdk : Sdk} (market : Market sdk) (conn : string)
    (wallet : Wallet sdk)
    (account : OpenOrdersAccount.t (PublicKey sdk))
    (instruction : Instruction sdk) : Prop :=
  exists w settle w',
    makeSettleFundsTransaction sdk market conn account
      (publicKey sdk wallet) (publicKey sdk wallet) w
    = (Ok settle, w')
    /\ head (instructions sdk settle) = Some instruction.


(** The market address a call of a method is about. *)
Definition addressOf {sdk : Sdk} (op : Operation sdk) : string :=
  match op with
  | OpGetMarket _ marketAddress => marketAddress
  | OpGetOrderBook _ marketAddress _ => marketAddress
  | OpPlaceLimitOrder _ params => LimitOrder.marketAddress params
  | OpPlaceMarketOrder _ params => MarketOrder.marketAddress params
  | OpCancelOrder _ params => Cancel.marketAddress params
  | OpSettleFunds _ params => Settle.marketAddress params
  | OpGetOpenOrders _ params => OpenOrdersQuery.marketAddress params
  | OpGetRecentTrades _ marketAddress _ => marketAddress
  | OpGetMarketStats _ marketAddress => marketAddress
  end.

(** [confined marketAddress st st']: from [st] to [st'] the connection,
    the program id and the fee-discount key of the instance are the same,
    and so is the cache entry of every address but [marketAddress]. *)
Definition confined {sdk : Sdk} (marketAddress : string)
    (st st' : State sdk) : Prop :=
  connection (this st') = connection (this st)
  /\ marketProgramId (this st') = marketProgramId (this st)
  /\ feeDiscountPubkey (this st') = feeDiscountPubkey (this st)
  /\ forall other,
       other <> marketAddress ->
       marketCache (this st') !! other = marketCache (this st) !! other.

(** ** A small world to run the operations in *)

(** Markets are known by their address, keys and wallets are strings, an
    instruction is the name of what it does, and the world is the clock in
    milliseconds: every request takes one.  The market ["SOL/USDC"] has
    two bids and two asks, the market ["THIN"] a single ask and no bid; the
    address ["UNLISTED"] is not a market. *)
Module Demo.

Definition bidsOf (market : string) : list (Q * Q * string) :=
  if String.eqb market "SOL/USDC"
  then [(99, 10, "b1"); (98, 5, "b2")]
  else [].

Definition asksOf (market : string) : list (Q * Q * string) :=
  if String.eqb market "SOL/USDC"
  then [(101, 5, "a1"); (102, 5, "a2")]
  else [(100, 1, "a1")].

Definition fillsOf (market : string) : list Fill.t :=
  [Fill.mk 110 2 "buy" 1700000000 (1 # 100);
   Fill.mk 100 3 "sell" 1699990000 (1 # 100);
   Fill.mk 50 7 "buy" 1699000000 (1 # 100)].

Definition sdk : Sdk := {|
  World := Z;
  Market := string;
  Orderbook := list (Q * Q * string);
  PublicKey := string;
  Wallet := string;
  Instruction := string;
  SettleTransaction := list string;
  BN := string;
  SERUM_PROGRAM_ID := "9xQeWvG816bUx9EPjHmaT23yvVM2ZWbrrpZb9PusVFin";
  new_PublicKey := fun address =>
    if String.eqb address "" then Throw "Invalid public key input"
    else Ok address;
  PublicKey_toString := fun key => key;
  new_BN := fun digits => Ok digits;
  BN_toString := fun bn => bn;
  publicKey := fun wallet => wallet;
  Date_now := fun clock => clock;
  Market_load := fun _ marketPubkey _ clock =>
    if String.eqb marketPubkey "UNLISTED"
    then (Throw "Market not found", (clock + 1)%Z)
    else (Ok marketPubkey, (clock + 1)%Z);
  Market_address := fun market => market;
  loadBids := fun market _ clock => (Ok (bidsOf market), (clock + 1)%Z);
  loadAsks := fun market _ clock => (Ok (asksOf market), (clock + 1)%Z);
  getL2 := fun levels depth => firstn (Z.to_nat depth) levels;
  findOpenOrdersAccountsForOwner := fun _ _ owner clock =>
    (Ok [OpenOrdersAccount.mk owner], (clock + 1)%Z);
  makeCreateAccountTransaction := fun _ _ _ _ clock =>
    (Ok "createAccount", (clock + 1)%Z);
  sendTransaction := fun _ _ _ _ _ clock => (Ok "txid", (clock + 1)%Z);
  confirmTransaction := fun _ _ clock => (Ok tt, (clock + 1)%Z);
  priceNumberToLots := fun _ price =>
    match price with
    | Fin _ => Ok "priceLots"
    | _ => Throw "Invalid price"
    end;
  baseSizeNumberToLots := fun _ size =>
    match size with
    | Fin _ => Ok "sizeLots"
    | _ => Throw "Invalid size"
    end;
  makePlaceOrderInstruction := fun _ _ => Ok "placeOrder";
  makeCancelOrderInstruction := fun _ _ => Ok "cancelOrder";
  makeSettleFundsTransaction := fun _ _ _ _ _ clock =>
    (Ok ["settleFunds"], (clock + 1)%Z);
  instructions := fun settle => settle;
  loadOrdersForOwner := fun _ _ _ clock => (Ok [], (clock + 1)%Z);
  loadFills := fun market _ _ clock => (Ok (fillsOf market), (clock + 1)%Z)
|}.

(** A fresh instance, shortly after the most recent fill. *)
Definition self : SolanaOrderBook sdk :=
  mkSolanaOrderBook (sdk := sdk) "https://api.mainnet-beta.solana.com" ∅
    "9xQeWvG816bUx9EPjHmaT23yvVM2ZWbrrpZb9PusVFin" None.

Definition start : State sdk := mkState self 1700000001000%Z [].


(** The snapshot of ["SOL/USDC"] taken from [start], the state it
    leaves, and the snapshot of ["THIN"]. *)
Definition book : OrderBook.t :=
  orderBookOf "SOL/USDC" (bidsOf "SOL/USDC") (asksOf "SOL/USDC")
    1700000001003%Z.

Definition afterBook : State sdk :=
  snd (getOrderBook sdk "SOL/USDC" None start).

Definition thinBook : OrderBook.t :=
  orderBookOf "THIN" (bidsOf "THIN") (asksOf "THIN") 1700000001003%Z.

(** The recent trades of ["SOL/USDC"]: two within the last 24 hours,
    one from eleven days before. *)
Definition trades : list Trade.t :=
  map (formatTrade "SOL/USDC") (fillsOf "SOL/USDC").

(** A few calls, one after the other. *)
Definition session : list (Operation sdk) :=
  [OpPlaceLimitOrder sdk
     (LimitOrder.mk (Wallet := Wallet sdk) "SOL/USDC" "alice" "buy"
        (Fin 99) (Fin 2) None None None);
   OpGetMarketStats sdk "THIN";
   OpGetMarket sdk "UNLISTED";
   OpCancelOrder sdk
     (Cancel.mk (Wallet := Wallet sdk) "SOL/USDC" "alice" "7" "buy" None)].

(** A limit order that names no self-trade policy. *)
Definition bid : LimitOrder.t (Wallet sdk) :=
  LimitOrder.mk (Wallet := Wallet sdk) "SOL/USDC" "alice" "buy"
    (Fin 99) (Fin 2) None None None.

(** The same world, but where a wallet has no open-orders account
    until one has been created for it: there, an account is found from
    clock 1700000001004 on. *)
Definition newcomer : Sdk := {|
  World := World sdk;
  Market := Market sdk;
  Orderbook := Orderbook sdk;
  PublicKey := PublicKey sdk;
  Wallet := Wallet sdk;
  Instruction := Instruction sdk;
  SettleTransaction := SettleTransaction sdk;
  BN := BN sdk;
  SERUM_PROGRAM_ID := SERUM_PROGRAM_ID sdk;
  new_PublicKey := new_PublicKey sdk;
  PublicKey_toString := PublicKey_toString sdk;
  new_BN := new_BN sdk;
  BN_toString := BN_toString sdk;
  publicKey := publicKey sdk;
  Date_now := Date_now sdk;
  Market_load := Market_load sdk;
  Market_address := Market_address sdk;
  loadBids := loadBids sdk;
  loadAsks := loadAsks sdk;
  getL2 := getL2 sdk;
  findOpenOrdersAccountsForOwner := fun _ _ owner clock =>
    (Ok (if (1700000001004 <=? clock)%Z
         then [OpenOrdersAccount.mk owner]
         else []),
     (clock + 1)%Z);
  makeCreateAccountTransaction := makeCreateAccountTransaction sdk;
  sendTransaction := sendTransaction sdk;
  confirmTransaction := confirmTransaction sdk;
  priceNumberToLots := priceNumberToLots sdk;
  baseSizeNumberToLots := baseSizeNumberToLots sdk;
  makePlaceOrderInstruction := makePlaceOrderInstruction sdk;
  makeCancelOrderInstruction := makeCancelOrderInstruction sdk;
  makeSettleFundsTransaction := makeSettleFundsTransaction sdk;
  instructions := instructions sdk;
  loadOrdersForOwner := loadOrdersForOwner sdk;
  loadFills := loadFills sdk
|}.

Definition arrival : State newcomer :=
  mkState (sdk := newcomer)
    (mkSolanaOrderBook (sdk := newcomer)
       "https://api.mainnet-beta.solana.com" ∅
       "9xQeWvG816bUx9EPjHmaT23yvVM2ZWbrrpZb9PusVFin" None)
    1700000001000%Z [].

Definition firstOrder : LimitOrder.t (Wallet newcomer) :=
  LimitOrder.mk (Wallet := Wallet newcomer) "SOL/USDC" "bob" "sell"
    (Fin 103) (Fin 1) None (Some "42") None.

Definition firstSettle : Settle.t (Wallet newcomer) :=
  Settle.mk (Wallet := Wallet newcomer) "SOL/USDC" "bob" None.

(** Settling, cancelling with the account named, and two market
    orders. *)
Definition settle : Settle.t (Wallet sdk) :=
  Settle.mk (Wallet := Wallet sdk) "SOL/USDC" "alice" None.

Definition cancel : Cancel.t (Wallet sdk) :=
  Cancel.mk (Wallet := Wallet sdk) "SOL/USDC" "alice" "7" "buy"
    (Some "alice-open-orders").


Definition buy0 : MarketOrder.t (Wallet sdk) :=
  MarketOrder.mk (Wallet := Wallet sdk) "SOL/USDC" "alice" "buy" 0
    None None.


Definition firstCancel : Cancel.t (Wallet newcomer) :=
  Cancel.mk (Wallet := Wallet newcomer) "SOL/USDC" "bob" "7" "sell"
    None.

(** Four milliseconds earlier: the account is not yet to be found after
    its creation has been confirmed. *)
Definition tooEarly : State newcomer :=
  mkState (sdk := newcomer) (this arrival) 1700000000996%Z [].

End Demo.

(** * Properties *)

(** ** Arithmetic of the estimate *)

Lemma Qgt_bool_true (a b : Q) : Qgt_bool a b = true <-> b < a.
Proof.
  unfold Qgt_bool. rewrite negb_true_iff.
  destruct (Qle_bool a b) eqn:E.
  - apply Qle_bool_iff in E. split; [discriminate | lra].
  - split; [intros _ | reflexivity].
    apply Qnot_le_lt. intros H. apply Qle_bool_iff in H. congruence.
Qed.

Lemma Qgt_bool_false (a b : Q) : Qgt_bool a b = false <-> a <= b.
Proof.
  unfold Qgt_bool. rewrite negb_false_iff. apply Qle_bool_iff.
Qed.

Lemma Qle_bool_false (a b : Q) : Qle_bool a b = false <-> b < a.
Proof.
  rewrite <- Qgt_bool_true. unfold Qgt_bool. now rewrite negb_true_iff.
Qed.

Lemma totalSize_nonneg (orders : list Item.t) :
  Forall (fun order => 0 <= Item.size order) orders -> 0 <= totalSize orders.
Proof.
  induction 1 as [| order rest Hs _ IH]; simpl; lra.
Qed.

(** Something remains after the loop exactly when the list offers less
    than what was asked for. *)
Lemma walkOrders_remaining (orders : list Item.t) :
  Forall (fun order => 0 <= Item.size order) orders ->
  forall remainingSize totalCost,
    0 < fst (walkOrders orders remainingSize totalCost)
    <-> totalSize orders < remainingSize.
Proof.
  induction 1 as [| order rest Hs Hrest IH]; intros rem tc; simpl.
  - reflexivity.
  - pose proof (totalSize_nonneg _ Hrest) as Hnn.
    destruct (Q.min_spec rem (Item.size order)) as [[Hlt Hmin] | [Hle Hmin]];
      destruct (Qle_bool (rem - Qmin rem (Item.size order)) 0) eqn:E;
      try (apply Qle_bool_iff in E); try (apply Qle_bool_false in E);
      simpl; try rewrite IH; lra.
Qed.

(** A request for nothing takes nothing. *)
Lemma walkOrders_zero (orders : list Item.t) (remainingSize totalCost : Q) :
  Forall (fun order => 0 <= Item.size order) orders ->
  remainingSize == 0 ->
  snd (walkOrders orders remainingSize totalCost) == totalCost.
Proof.
  intros Hnn Hz. destruct Hnn as [| order rest Hs Hrest]; simpl.
  - reflexivity.
  - destruct (Q.min_spec remainingSize (Item.size order))
      as [[Hlt Hmin] | [Hle Hmin]];
      destruct (Qle_bool
                  (remainingSize - Qmin remainingSize (Item.size order)) 0)
        eqn:E;
      try (apply Qle_bool_iff in E); try (apply Qle_bool_false in E);
      simpl; try lra.
    + rewrite Hmin, Hz. ring.
    + assert (Item.size order == 0) as Hs0 by lra.
      rewrite Hmin, Hs0. ring.
Qed.

Lemma jsdiv_zero (a b : Q) : a == 0 -> b == 0 -> jsdiv a b = NaN.
Proof.
  intros Ha Hb. unfold jsdiv.
  now rewrite (Qeq_eq_bool _ _ Ha), (Qeq_eq_bool _ _ Hb).
Qed.






Lemma estimateMarketOrderPrice_cases
    (orders : list Item.t) (size : Q) (side : string) :
  Forall (fun order => 0 <= Item.size order) orders ->
  (totalSize orders < size
   /\ estimateMarketOrderPrice orders size side = Throw insufficientLiquidity)
  \/ (size <= totalSize orders
      /\ estimateMarketOrderPrice orders size side
         = Ok (jsdiv (snd (walkOrders orders size 0)) size)).
Proof.
  intros Hnn. unfold estimateMarketOrderPrice.
  pose proof (walkOrders_remaining orders Hnn size 0) as Hrem.
  destruct (walkOrders orders size 0) as [remainingSize totalCost] eqn:W.
  simpl in *.
  destruct (Qgt_bool remainingSize 0) eqn:E.
  - left. apply Qgt_bool_true in E. split; [now apply Hrem | reflexivity].
  - right. apply Qgt_bool_false in E. split; [| reflexivity].
    apply Qnot_lt_le. intros H. apply Hrem in H. lra.
Qed.

(** Two asks, 5 at 101 and 5 at 102: a request for 8 takes 5 and 3, a
    request for 11 finds too little, a request for nothing divides 0 by
    0. *)
Example estimate_across_two_levels :
  estimateMarketOrderPrice (OrderBook.asks Demo.book) 8 "buy"
  = Ok (Fin (811 # 8)).
Proof. reflexivity. Qed.

Example estimate_beyond_the_book :
  estimateMarketOrderPrice (OrderBook.asks Demo.book) 11 "buy"
  = Throw insufficientLiquidity.
Proof. reflexivity. Qed.

Example estimate_of_nothing :
  estimateMarketOrderPrice (OrderBook.asks Demo.book) 0 "buy" = Ok NaN.
Proof. reflexivity. Qed.



(** ** Running the monad *)

Section Run.

Context {sdk : Sdk}.

Lemma bind_inv {A B : Type} (m : M sdk A) (k : A -> M sdk B)
    (st st' : State sdk) (r : Res B) :
  bind m k st = (r, st') ->
  (exists a st1, m st = (Ok a, st1) /\ k a st1 = (r, st'))
  \/ (exists message, m st = (Throw message, st') /\ r = Throw message).
Proof.
  unfold bind. destruct (m st) as [[a | message] st1]; intros H.
  - left. eauto.
  - right. exists message. now inversion H.
Qed.

Lemma bind_Ok_inv {A B : Type} (m : M sdk A) (k : A -> M sdk B)
    (st st' : State sdk) (b : B) :
  bind m k st = (Ok b, st') ->
  exists a st1, m st = (Ok a, st1) /\ k a st1 = (Ok b, st').
Proof.
  intros H. apply bind_inv in H as [H | (message & _ & H)];
    [exact H | discriminate].
Qed.

Lemma bind_Ok {A B : Type} (m : M sdk A) (k : A -> M sdk B)
    (st st1 : State sdk) (a : A) :
  m st = (Ok a, st1) -> bind m k st = k a st1.
Proof. intros H. unfold bind. now rewrite H. Qed.

Lemma bind_Throw {A B : Type} (m : M sdk A) (k : A -> M sdk B)
    (st st1 : State sdk) (message : string) :
  m st = (Throw message, st1) -> bind m k st = (Throw message, st1).
Proof. intros H. unfold bind. now rewrite H. Qed.

Lemma tryCatch_inv {A : Type} (body : M sdk A) (handler : string -> M sdk A)
    (st st' : State sdk) (r : Res A) :
  tryCatch body handler st = (r, st') ->
  (exists a, body st = (Ok a, st') /\ r = Ok a)
  \/ (exists message st1,
        body st = (Throw message, st1) /\ handler message st1 = (r, st')).
Proof.
  unfold tryCatch. destruct (body st) as [[a | message] st1]; intros H.
  - left. exists a. now inversion H.
  - right. eauto.
Qed.

Lemma tryCatch_Ok {A : Type} (body : M sdk A) (handler : string -> M sdk A)
    (st st1 : State sdk) (a : A) :
  body st = (Ok a, st1) -> tryCatch body handler st = (Ok a, st1).
Proof. intros H. unfold tryCatch. now rewrite H. Qed.

Lemma tryCatch_Throw {A : Type} (body : M sdk A)
    (handler : string -> M sdk A) (st st1 : State sdk) (message : string) :
  body st = (Throw message, st1) ->
  tryCatch body handler st = handler message st1.
Proof. intros H. unfold tryCatch. now rewrite H. Qed.

Lemma rpc_inv {A : Type} (call : Call sdk)
    (request : World sdk -> Res A * World sdk)
    (st st' : State sdk) (r : Res A) :
  rpc call request st = (r, st') ->
  exists w, request (world st) = (r, w)
            /\ st' = mkState (this st) w (calls st ++ [call]).
Proof.
  unfold rpc. destruct (request (world st)) as [r0 w]. intros [= <- <-].
  eauto.
Qed.

(** *** getMarket, step by step *)

Lemma getMarket_hit (marketAddress : string) (st : State sdk)
    (market : Market sdk) :
  marketCache (this st) !! marketAddress = Some market ->
  getMarket sdk marketAddress st = (Ok market, st).
Proof.
  intros H. unfold getMarket, tryCatch, bind, getThis, ret.
  now rewrite H.
Qed.

Lemma getMarket_miss (marketAddress : string) (st : State sdk) :
  marketCache (this st) !! marketAddress = None ->
  getMarket sdk marketAddress st =
  match new_PublicKey sdk marketAddress with
  | Throw message => (Throw ("Failed to load market: " ++ message)%string, st)
  | Ok marketPubkey =>
      let call :=
        CallMarketLoad sdk (connection (this st)) marketPubkey
          (marketProgramId (this st)) in
      match Market_load sdk (connection (this st)) marketPubkey
              (marketProgramId (this st)) (world st) with
      | (Ok market, w) =>
          (Ok market,
           mkState (cached marketAddress market (this st)) w
                   (calls st ++ [call]))
      | (Throw message, w) =>
          (Throw ("Failed to load market: " ++ message)%string,
           mkState (this st) w (calls st ++ [call]))
      end
  end.
Proof.
  intros H.
  unfold getMarket, tryCatch, bind, getThis, ret, liftRes, rpc, throw,
    marketCache_set.
  rewrite H. simpl.
  destruct (new_PublicKey sdk marketAddress) as [marketPubkey | message];
    [| reflexivity].
  destruct (Market_load sdk _ _ _ _) as [[market | message] w]; reflexivity.
Qed.

End Run.

(** Taking a successful run apart, statement by statement. *)
Ltac run_inv :=
  repeat match goal with
    | H : tryCatch _ _ _ = (Ok _, _) |- _ =>
        apply tryCatch_inv in H as [(? & H & ?) | (? & ? & ? & H)]
    | H : bind _ _ _ = (Ok _, _) |- _ =>
        let H1 := fresh "Hrun" in
        apply bind_Ok_inv in H as (? & ? & H1 & H)
    | H : ret _ _ = (_, _) |- _ =>
        unfold ret in H; inversion H; clear H; subst
    | H : throw _ _ = (Ok _, _) |- _ => discriminate H
    | H : Ok _ = Ok _ |- _ => inversion H; clear H; subst
    end.

(** ** What every run preserves *)

Section Respects.

Context {sdk : Sdk} (allowed : Call sdk -> Prop).

Lemma extends_refl (st : State sdk) : extends allowed st st.
Proof.
  split; [reflexivity |]. exists []. split; [| constructor].
  symmetry. apply app_nil_r.
Qed.

Lemma extends_trans (st1 st2 st3 : State sdk) :
  extends allowed st1 st2 -> extends allowed st2 st3 ->
  extends allowed st1 st3.
Proof.
  intros [Hc1 (i1 & E1 & F1)] [Hc2 (i2 & E2 & F2)]. split.
  - etransitivity; eassumption.
  - exists (i1 ++ i2). split.
    + rewrite E2, E1. symmetry. apply app_assoc.
    + apply Forall_app. split; assumption.
Qed.

Lemma extends_call (st : State sdk) (w : World sdk) (call : Call sdk) :
  allowed call ->
  extends allowed st (mkState (this st) w (calls st ++ [call])).
Proof.
  intros H. split; [reflexivity |]. exists [call]. split; [reflexivity |].
  repeat constructor. exact H.
Qed.

Lemma extends_cached (st : State sdk) (marketAddress : string)
    (market : Market sdk) (w : World sdk) :
  marketCache (this st) !! marketAddress = None ->
  extends allowed
    (mkState (this st) w (calls st))
    (mkState (cached marketAddress market (this st)) w (calls st)).
Proof.
  intros H. split; simpl.
  - now apply insert_subseteq.
  - exists []. split; [| constructor]. symmetry. apply app_nil_r.
Qed.

Lemma respects_ret {A : Type} (a : A) :
  respects (extends allowed) (ret (sdk := sdk) a).
Proof. intros st r st' [= _ <-]. apply extends_refl. Qed.

Lemma respects_throw {A : Type} (message : string) :
  respects (extends allowed) (throw (sdk := sdk) (A := A) message).
Proof. intros st r st' [= _ <-]. apply extends_refl. Qed.

Lemma respects_liftRes {A : Type} (r : Res A) :
  respects (extends allowed) (liftRes (sdk := sdk) r).
Proof. intros st r0 st' [= _ <-]. apply extends_refl. Qed.

Lemma respects_getThis : respects (extends allowed) (getThis sdk).
Proof. intros st r st' [= _ <-]. apply extends_refl. Qed.

Lemma respects_now : respects (extends allowed) (now sdk).
Proof. intros st r st' [= _ <-]. apply extends_refl. Qed.

Lemma respects_bind {A B : Type} (m : M sdk A) (k : A -> M sdk B) :
  respects (extends allowed) m ->
  (forall a, respects (extends allowed) (k a)) ->
  respects (extends allowed) (bind m k).
Proof.
  intros Hm Hk st r st' H.
  apply bind_inv in H as [(a & st1 & H1 & H2) | (message & H1 & _)].
  - eapply extends_trans; [eapply Hm | eapply Hk]; eassumption.
  - eapply Hm; eassumption.
Qed.

Lemma respects_tryCatch {A : Type} (body : M sdk A)
    (handler : string -> M sdk A) :
  respects (extends allowed) body ->
  (forall message, respects (extends allowed) (handler message)) ->
  respects (extends allowed) (tryCatch body handler).
Proof.
  intros Hb Hh st r st' H.
  apply tryCatch_inv in H as [(a & H1 & _) | (message & st1 & H1 & H2)].
  - eapply Hb; eassumption.
  - eapply extends_trans; [eapply Hb | eapply Hh]; eassumption.
Qed.

Lemma respects_rpc {A : Type} (call : Call sdk)
    (request : World sdk -> Res A * World sdk) :
  allowed call -> respects (extends allowed) (rpc call request).
Proof.
  intros Hc st r st' H. apply rpc_inv in H as (w & _ & ->).
  now apply extends_call.
Qed.

Lemma respects_build {A : Type} (call : Call sdk) (r : Res A) :
  allowed call -> respects (extends allowed) (build call r).
Proof.
  intros Hc st r0 st' [= _ <-]. now apply extends_call.
Qed.

Lemma respects_promiseAll2 {A B : Type} (a : M sdk A) (b : M sdk B) :
  respects (extends allowed) a -> respects (extends allowed) b ->
  respects (extends allowed) (promiseAll2 a b).
Proof.
  intros Ha Hb st r st' H. unfold promiseAll2 in H.
  destruct (a st) as [ra st1] eqn:Ea. destruct (b st1) as [rb st2] eqn:Eb.
  assert (st' = st2) as -> by (destruct ra, rb; now inversion H).
  eapply extends_trans; [eapply Ha | eapply Hb]; eassumption.
Qed.

Lemma respects_forEach {A B : Type} (body : A -> M sdk B) (items : list A) :
  (forall item, respects (extends allowed) (body item)) ->
  respects (extends allowed) (forEach body items).
Proof.
  intros Hbody. induction items as [| item rest IH]; simpl.
  - apply respects_ret.
  - apply respects_bind; [apply Hbody | intros b].
    apply respects_bind; [exact IH | intros bs]. apply respects_ret.
Qed.

Lemma respects_firstAddress
    (accounts : list (OpenOrdersAccount.t (PublicKey sdk))) :
  respects (extends allowed) (firstAddress sdk accounts).
Proof.
  destruct accounts; [apply respects_throw | apply respects_ret].
Qed.

Lemma respects_getMarket (marketAddress : string) :
  (forall call, isRead call = true -> allowed call) ->
  respects (extends allowed) (getMarket sdk marketAddress).
Proof.
  intros Hread st r st' H.
  destruct (marketCache (this st) !! marketAddress) as [market |] eqn:E.
  - rewrite (getMarket_hit _ _ _ E) in H. inversion H. apply extends_refl.
  - rewrite (getMarket_miss _ _ E) in H.
    destruct (new_PublicKey sdk marketAddress) as [marketPubkey | message].
    + simpl in H.
      destruct (Market_load sdk _ _ _ _) as [[market | message] w];
        inversion H; subst.
      * eapply extends_trans;
          [| now apply (extends_cached
                          (mkState (this st) w (calls st ++ [_])))].
        apply (extends_call st w). apply Hread. reflexivity.
      * apply (extends_call st w). apply Hread. reflexivity.
    + inversion H. apply extends_refl.
Qed.

End Respects.

(** One step through the text of an operation: a combinator by its lemma,
    a branch by cases. *)
Ltac respects_step :=
  first
    [ apply respects_ret | apply respects_throw | apply respects_liftRes
    | apply respects_getThis | apply respects_now
    | apply respects_firstAddress
    | apply respects_getMarket
    | apply respects_bind | apply respects_tryCatch
    | apply respects_promiseAll2 | apply respects_forEach
    | apply respects_rpc | apply respects_build
    | match goal with
      | |- forall _, _ => intro
      | |- respects _ (match ?x with _ => _ end) => destruct x
      | |- respects _ (let _ := _ in _) => cbv zeta
      end ].

Section Operations.

Context {sdk : Sdk} (allowed : Call sdk -> Prop).
Hypothesis allowed_read : forall call, isRead call = true -> allowed call.

Ltac leaf :=
  solve [assumption | apply allowed_read; first [reflexivity | assumption]].

Lemma respects_getOrderBook (marketAddress : string) (depth : option Z) :
  respects (extends allowed) (getOrderBook sdk marketAddress depth).
Proof. unfold getOrderBook. repeat respects_step; leaf. Qed.

Lemma respects_getRecentTrades (marketAddress : string) (limit : option Z) :
  respects (extends allowed) (getRecentTrades sdk marketAddress limit).
Proof. unfold getRecentTrades. repeat respects_step; leaf. Qed.

Lemma respects_getOpenOrders (params : OpenOrdersQuery.t) :
  respects (extends allowed) (getOpenOrders sdk params).
Proof. unfold getOpenOrders. repeat respects_step; leaf. Qed.

Lemma respects_getMarketStats (marketAddress : string) :
  respects (extends allowed) (getMarketStats sdk marketAddress).
Proof.
  unfold getMarketStats.
  repeat first [apply respects_getOrderBook | apply respects_getRecentTrades
               | respects_step]; leaf.
Qed.

(** The calls [placeLimitOrder] may issue: any call but a place-order
    instruction with another self-trade policy than the one it was
    given, or the default. *)
Lemma respects_placeLimitOrder (params : LimitOrder.t (Wallet sdk)) :
  (forall call, isRead call = false ->
     (forall market args,
        call = CallMakePlaceOrderInstruction sdk market args ->
        PlaceOrderArgs.selfTradeBehavior args =
          default "decrementTake" (LimitOrder.selfTradeBehavior params)) ->
     allowed call) ->
  respects (extends allowed) (placeLimitOrder sdk params).
Proof.
  intros Hw. unfold placeLimitOrder.
  repeat respects_step; try leaf;
    (apply Hw; [reflexivity | intros ? ? [=]; subst; reflexivity]).
Qed.




End Operations.

(** ** The statistics *)

Lemma inWindow_iff (now : Z) (trade : Trade.t) :
  inWindow (now - oneDay) trade = true
  <-> (now - 86400000 <= Trade.time trade)%Z.
Proof. unfold inWindow, oneDay. rewrite Z.leb_le. lia. Qed.

Lemma inWindow_false_iff (now : Z) (trade : Trade.t) :
  inWindow (now - oneDay) trade = false
  <-> (Trade.time trade < now - 86400000)%Z.
Proof. unfold inWindow, oneDay. rewrite Z.leb_gt. lia. Qed.

(** The last element that passes a filter splits the list: it passes, and
    nothing after it does. *)
Lemma last_filter_split {A : Type} (f : A -> bool) (l : list A) :
  match last (List.filter f l) with
  | Some x =>
      exists before after,
        l = (before ++ x :: after) /\ f x = true
        /\ Forall (fun y => f y = false) after
  | None => Forall (fun y => f y = false) l
  end.
Proof.
  induction l as [| a l IH]; simpl; [constructor |].
  destruct (f a) eqn:Fa.
  - rewrite last_cons. destruct (last (List.filter f l)) as [x |].
    + destruct IH as (before & after & -> & Fx & Hafter).
      exists (a :: before), after. auto.
    + exists [], l. auto.
  - destruct (last (List.filter f l)) as [x |].
    + destruct IH as (before & after & -> & Fx & Hafter).
      exists (a :: before), after. auto.
    + constructor; assumption.
Qed.

Lemma fold_left_volume (f : Trade.t -> Q) (trades : list Trade.t) (acc : Q) :
  fold_left (fun total trade => total + f trade) trades acc
  == acc + fold_right (fun trade rest => f trade + rest) 0 trades.
Proof.
  revert acc. induction trades as [| trade rest IH]; intros acc; simpl.
  - ring.
  - rewrite IH. ring.
Qed.

Lemma volumeInWindow_filter (now : Z) (trades : list Trade.t) :
  fold_right (fun trade rest => Trade.price trade * Trade.size trade + rest) 0
    (List.filter (inWindow (now - oneDay)) trades)
  == volumeInWindow now trades.
Proof.
  induction trades as [| trade rest IH]; simpl; [reflexivity |].
  assert (inWindow (now - oneDay) trade
          = (now - 86400000 <=? Trade.time trade)%Z) as -> by reflexivity.
  destruct (now - 86400000 <=? Trade.time trade)%Z; simpl; rewrite IH; ring.
Qed.

Lemma volumeInWindow_app (now : Z) (l1 l2 : list Trade.t) :
  volumeInWindow now (l1 ++ l2)
  == volumeInWindow now l1 + volumeInWindow now l2.
Proof.
  induction l1 as [| trade rest IH]; simpl.
  - ring.
  - rewrite IH. ring.
Qed.

Lemma marketStats_volume24h (marketAddress : string) (orderBook : OrderBook.t)
    (recentTrades : list Trade.t) (now updated : Z) :
  Stats.volume24h
    (marketStats marketAddress orderBook recentTrades now updated)
  == volumeInWindow now recentTrades.
Proof.
  simpl. rewrite fold_left_volume, volumeInWindow_filter. ring.
Qed.

(** [getMarketStats] computes its result by [marketStats], from the
    trades that [getRecentTrades] resolved to. *)
Lemma getMarketStats_inv (sdk : Sdk) (marketAddress : string)
    (st st' : State sdk) (stats : Stats.t) :
  getMarketStats sdk marketAddress st = (Ok stats, st') ->
  exists orderBook recentTrades st1,
    getRecentTrades sdk marketAddress (Some 100%Z) st1
    = (Ok recentTrades, st')
    /\ stats
       = marketStats marketAddress orderBook recentTrades
           (Date_now sdk (world st')) (Date_now sdk (world st')).
Proof.
  unfold getMarketStats. intros H. run_inv.
  repeat match goal with
         | Hn : now _ _ = _ |- _ =>
             unfold now in Hn; inversion Hn; clear Hn; subst
         end.
  eauto.
Qed.

(** C4.  Whatever the list of recent trades, the 24-hour volume computed
    by [getMarketStats] is the sum of [price * size] over exactly the
    trades whose time is within the 24 hours before now: a trade in the
    window adds its [price * size], a trade outside changes nothing. *)
Theorem getMarketStats_volume24h
    (marketAddress : string) (orderBook : OrderBook.t)
    (recentTrades : list Trade.t) (now updated : Z) :
  let volume trades :=
    Stats.volume24h (marketStats marketAddress orderBook trades now updated) in
  volume recentTrades == volumeInWindow now recentTrades
  /\ (forall before trade after,
        (now - 86400000 <= Trade.time trade)%Z ->
        volume (before ++ trade :: after)
        == volume (before ++ after) + Trade.price trade * Trade.size trade)
  /\ (forall before trade after,
        (Trade.time trade < now - 86400000)%Z ->
        volume (before ++ trade :: after) == volume (before ++ after)).
Proof.
  intros volume. unfold volume. split; [apply marketStats_volume24h |].
  split; intros before trade after Ht;
    rewrite !marketStats_volume24h, !volumeInWindow_app; simpl.
  - apply Z.leb_le in Ht. rewrite Ht. ring.
  - apply Z.leb_gt in Ht. rewrite Ht. ring.
Qed.

Lemma mostRecentFirst_before (before after : list Trade.t) (trade : Trade.t) :
  mostRecentFirst (before ++ trade :: after) ->
  forall earlier, In earlier before ->
    (Trade.time trade <= Trade.time earlier)%Z.
Proof.
  unfold mostRecentFirst.
  induction before as [| b before IH]; simpl; intros Hs earlier Hin;
    [contradiction |].
  apply StronglySorted_inv in Hs as [Hs Hall].
  destruct Hin as [<- | Hin].
  - rewrite List.Forall_forall in Hall. apply Hall.
    apply in_or_app. right. now left.
  - now apply IH.
Qed.

(** C3.  Whatever the list of recent trades: when no trade is within the
    24 hours before now, the price change computed by [getMarketStats] is
    0; when some trade is, the price change is
    [(latest - oldest) / oldest * 100], where [latest] is the price of the
    first trade of the list and [oldest] the price of the last trade of
    the list that is within the window.  On a list that has the most
    recent trade first, as [getRecentTrades] delivers it, these are the
    most recent trade and the oldest trade inside the window. *)
Theorem getMarketStats_priceChange
    (marketAddress : string) (orderBook : OrderBook.t)
    (recentTrades : list Trade.t) (now updated : Z) :
  let change :=
    Stats.priceChange
      (marketStats marketAddress orderBook recentTrades now updated) in
  ((forall trade, In trade recentTrades ->
      (Trade.time trade < now - 86400000)%Z) ->
   change = Fin 0)
  /\ ((exists trade, In trade recentTrades
                     /\ (now - 86400000 <= Trade.time trade)%Z) ->
      exists latest rest oldest before after,
        recentTrades = latest :: rest
        /\ recentTrades = before ++ oldest :: after
        /\ (now - 86400000 <= Trade.time oldest)%Z
        /\ (forall trade, In trade after ->
              (Trade.time trade < now - 86400000)%Z)
        /\ change =
           num_mul
             (jsdiv (Trade.price latest - Trade.price oldest)
                    (Trade.price oldest))
             (Fin 100)
        /\ (mostRecentFirst recentTrades ->
            (forall trade, In trade recentTrades ->
               (Trade.time trade <= Trade.time latest)%Z)
            /\ (forall trade, In trade recentTrades ->
                  (now - 86400000 <= Trade.time trade)%Z ->
                  (Trade.time oldest <= Trade.time trade)%Z))).
Proof.
  intros change. unfold change. simpl.
  pose proof (last_filter_split (inWindow (now - oneDay)) recentTrades)
    as Hlast.
  destruct (last (List.filter (inWindow (now - oneDay)) recentTrades))
    as [oldest |].
  - destruct Hlast as (before & after & Hsplit & Hin & Hafter).
    rewrite List.Forall_forall in Hafter.
    split.
    + intros Hnone. exfalso.
      assert (Trade.time oldest < now - 86400000)%Z as Hold.
      { apply Hnone. rewrite Hsplit. apply in_or_app. right. now left. }
      apply inWindow_iff in Hin. lia.
    + intros _. destruct recentTrades as [| latest rest].
      { destruct before; discriminate. }
      exists latest, rest, oldest, before, after.
      split; [reflexivity |]. split; [exact Hsplit |].
      split; [now apply inWindow_iff |].
      split; [intros trade Ht; apply inWindow_false_iff; now apply Hafter |].
      split; [reflexivity |].
      intros Hsorted. split.
      * intros trade [<- | Ht]; [lia |].
        apply StronglySorted_inv in Hsorted as [_ Hall].
        rewrite List.Forall_forall in Hall. now apply Hall.
      * intros trade Ht Hw. rewrite Hsplit in Ht, Hsorted.
        apply in_app_or in Ht as [Ht | [<- | Ht]].
        -- eapply mostRecentFirst_before; eassumption.
        -- lia.
        -- apply Hafter, inWindow_false_iff in Ht. lia.
  - rewrite List.Forall_forall in Hlast. split; [reflexivity |].
    intros (trade & Ht & Hw). apply Hlast, inWindow_false_iff in Ht. lia.
Qed.

(** ** The order book snapshot *)

Section Snapshot.

Context {sdk : Sdk}.

Lemma getOrderBook_inv (marketAddress : string) (depth : option Z)
    (st st' : State sdk) (orderBook : OrderBook.t) :
  getOrderBook sdk marketAddress depth st = (Ok orderBook, st') ->
  exists bidsL2 asksL2 timestamp,
    orderBook = orderBookOf marketAddress bidsL2 asksL2 timestamp.
Proof.
  unfold getOrderBook. intros H. run_inv. eauto.
Qed.

End Snapshot.

(** C1, as the code has it.  In every snapshot returned by [getOrderBook]
    the spread is [bestAsk - bestBid], where the best price of an empty
    side counts as 0: the spread is 0 when both sides are empty, the best
    ask when only the bids are empty, and minus the best bid when only the
    asks are empty. *)
Theorem getOrderBook_spread (sdk : Sdk) (marketAddress : string)
    (depth : option Z) (st st' : State sdk) (orderBook : OrderBook.t) :
  getOrderBook sdk marketAddress depth st = (Ok orderBook, st') ->
  let bestBid := bestPrice (OrderBook.bids orderBook) in
  let bestAsk := bestPrice (OrderBook.asks orderBook) in
  OrderBook.spread orderBook = bestAsk - bestBid
  /\ (OrderBook.bids orderBook = [] -> OrderBook.asks orderBook = [] ->
      OrderBook.spread orderBook == 0)
  /\ (OrderBook.bids orderBook = [] ->
      OrderBook.spread orderBook == bestAsk)
  /\ (OrderBook.asks orderBook = [] ->
      OrderBook.spread orderBook == - bestBid).
Proof.
  intros H. apply getOrderBook_inv in H as (bidsL2 & asksL2 & timestamp & ->).
  simpl. split; [reflexivity |].
  split; [intros -> -> | split; intros ->]; simpl; ring.
Qed.

(** C5.  In every snapshot returned by [getOrderBook] the spread
    percentage is [spread / bestBid * 100] when the best bid is strictly
    positive, and 0 when the best bid is 0, which is the case when there
    are no bids. *)
Theorem getOrderBook_spreadPercentage (sdk : Sdk) (marketAddress : string)
    (depth : option Z) (st st' : State sdk) (orderBook : OrderBook.t) :
  getOrderBook sdk marketAddress depth st = (Ok orderBook, st') ->
  let bestBid := bestPrice (OrderBook.bids orderBook) in
  (0 < bestBid ->
   OrderBook.spreadPercentage orderBook
   = OrderBook.spread orderBook / bestBid * 100)
  /\ (bestBid == 0 -> OrderBook.spreadPercentage orderBook = 0)
  /\ (OrderBook.bids orderBook = [] ->
      bestBid = 0 /\ OrderBook.spreadPercentage orderBook = 0).
Proof.
  intros H. apply getOrderBook_inv in H as (bidsL2 & asksL2 & timestamp & ->).
  simpl.
  set (bidItems := map _ bidsL2). set (askItems := map _ asksL2).
  split; [| split].
  - intros Hpos. apply Qgt_bool_true in Hpos. now rewrite Hpos.
  - intros Hz.
    assert (Qgt_bool (bestPrice bidItems) 0 = false) as ->; [| reflexivity].
    apply Qgt_bool_false. lra.
  - intros ->. split; reflexivity.
Qed.

(** ** The market cache *)

Section MarketCache.

Context {sdk : Sdk}.



Lemma getMarket_Ok_cached (marketAddress : string) (st st' : State sdk)
    (market : Market sdk) :
  getMarket sdk marketAddress st = (Ok market, st') ->
  marketCache (this st') !! marketAddress = Some market.
Proof.
  intros H.
  destruct (marketCache (this st) !! marketAddress) as [cachedMarket |] eqn:E.
  - rewrite (getMarket_hit _ _ _ E) in H. inversion H; subst. exact E.
  - rewrite (getMarket_miss _ _ E) in H.
    destruct (new_PublicKey sdk marketAddress) as [marketPubkey | message];
      [| discriminate].
    simpl in H.
    destruct (Market_load sdk _ _ _ _) as [[loaded | message] w];
      inversion H; subst.
    simpl. apply lookup_insert_eq.
Qed.

End MarketCache.


(** ** The mutating operations *)

Section Mutations.

Context {sdk : Sdk}.

Lemma build_inv {A : Type} (call : Call sdk) (r r' : Res A)
    (st st' : State sdk) :
  build call r st = (r', st') ->
  r' = r /\ st' = mkState (this st) (world st) (calls st ++ [call]).
Proof. now intros [= <- <-]. Qed.

(** A [catch] that returns the failure object never lets an error
    through. *)
Lemma catch_all {P : Type} (body : M sdk (Result P)) (st : State sdk) :
  exists result st',
    tryCatch body (fun message => ret (Failure message)) st
    = (Ok result, st')
    /\ (body st = (Ok result, st')
        \/ exists message,
             body st = (Throw message, st') /\ result = Failure message).
Proof.
  unfold tryCatch. destruct (body st) as [[result | message] st'] eqn:E.
  - exists result, st'. auto.
  - exists (Failure message), st'. split; [reflexivity |]. right. eauto.
Qed.

(** What a successful [placeLimitOrder] has done: the instruction was
    built from the parameters, sent as the only instruction of a
    transaction signed by the wallet, and the result echoes the
    parameters. *)
Lemma placeLimitOrder_success (params : LimitOrder.t (Wallet sdk))
    (st st' : State sdk) (txid : string) (echo : Placed.t) :
  placeLimitOrder sdk params st = (Ok (Success txid echo), st') ->
  echo = Placed.mk (LimitOrder.marketAddress params)
           (LimitOrder.side params) (LimitOrder.price params)
           (LimitOrder.size params)
           (default "limit" (LimitOrder.orderType params))
           (if truthy (LimitOrder.clientId params)
            then LimitOrder.clientId params else None)
  /\ exists before market args instruction conn w,
       PlaceOrderArgs.selfTradeBehavior args
       = default "decrementTake" (LimitOrder.selfTradeBehavior params)
       /\ PlaceOrderArgs.orderType args
          = default "limit" (LimitOrder.orderType params)
       /\ PlaceOrderArgs.side args = LimitOrder.side params
       /\ makePlaceOrderInstruction sdk market args = Ok instruction
       /\ calls st'
          = before
            ++ [CallMakePlaceOrderInstruction sdk market args;
                CallSendTransaction sdk conn [instruction]
                  [LimitOrder.wallet params] false "confirmed"]
       /\ sendTransaction sdk conn [instruction]
            [LimitOrder.wallet params] false "confirmed" w
          = (Ok txid, world st').
Proof.
  unfold placeLimitOrder. intros H. run_inv.
  split; [reflexivity |].
  match goal with
  | Hb : build _ _ _ = _, Hs : rpc _ _ _ = _ |- _ =>
      apply build_inv in Hb as [Hb ->];
      apply rpc_inv in Hs as (w & Hs & ->)
  end.
  simpl in *.
  repeat eexists; [| | | symmetry; eassumption | | eassumption];
    try reflexivity.
  simpl. rewrite <- app_assoc. reflexivity.
Qed.



Lemma estimate_opposing (side : string) (orderBook : OrderBook.t) (size : Q) :
  (if String.eqb side "buy"
   then estimateMarketOrderPrice (OrderBook.asks orderBook) size side
   else estimateMarketOrderPrice (OrderBook.bids orderBook) size side)
  = estimateMarketOrderPrice (opposing side orderBook) size side.
Proof. unfold opposing. now destruct (String.eqb side "buy"). Qed.


Lemma placeLimitOrder_total (params : LimitOrder.t (Wallet sdk))
    (st : State sdk) :
  exists result st', placeLimitOrder sdk params st = (Ok result, st').
Proof.
  unfold placeLimitOrder.
  match goal with
  | |- context [tryCatch ?body _ st] =>
      destruct (catch_all body st) as (result & st' & E & _)
  end.
  eauto.
Qed.




End Mutations.


(** C6.  A [placeLimitOrder] whose parameters name no
    [selfTradeBehavior] asks the SDK for place-order instructions with
    the policy ["decrementTake"] only; when it succeeds, the transaction
    it sent holds exactly one instruction, built with that policy. *)
Theorem placeLimitOrder_default_selfTradeBehavior (sdk : Sdk)
    (params : LimitOrder.t (Wallet sdk)) (st st' : State sdk)
    (r : Res (Result Placed.t)) :
  LimitOrder.selfTradeBehavior params = None ->
  placeLimitOrder sdk params st = (r, st') ->
  (exists issued,
     calls st' = calls st ++ issued
     /\ forall market args,
          In (CallMakePlaceOrderInstruction sdk market args) issued ->
          PlaceOrderArgs.selfTradeBehavior args = "decrementTake")
  /\ (forall txid echo,
        r = Ok (Success txid echo) ->
        exists before market args instruction conn,
          PlaceOrderArgs.selfTradeBehavior args = "decrementTake"
          /\ makePlaceOrderInstruction sdk market args = Ok instruction
          /\ calls st'
             = before
               ++ [CallMakePlaceOrderInstruction sdk market args;
                   CallSendTransaction sdk conn [instruction]
                     [LimitOrder.wallet params] false "confirmed"]).
Proof.
  intros Hdefault H. split.
  - set (allowed := fun call : Call sdk =>
           forall market args,
             call = CallMakePlaceOrderInstruction sdk market args ->
             PlaceOrderArgs.selfTradeBehavior args = "decrementTake").
    assert (respects (extends allowed) (placeLimitOrder sdk params)) as Hr.
    { apply respects_placeLimitOrder.
      - intros call Hread market args ->. discriminate Hread.
      - intros call _ Hcall market args ->.
        rewrite (Hcall market args eq_refl), Hdefault. reflexivity. }
    destruct (Hr _ _ _ H) as [_ (issued & Hcalls & Hall)].
    exists issued. split; [exact Hcalls |].
    intros market args Hin. rewrite List.Forall_forall in Hall.
    exact (Hall _ Hin market args eq_refl).
  - intros txid echo ->.
    apply placeLimitOrder_success in H
      as (_ & before & market & args & instruction & conn & w
          & Hpolicy & _ & _ & Hbuilt & Hcalls & _).
    rewrite Hdefault in Hpolicy. eauto 10.
Qed.

(** ** Market orders against a thin book *)

Lemma getOrderBook_after_getMarket {sdk : Sdk} (marketAddress : string)
    (depth : option Z) (st st' : State sdk) (orderBook : OrderBook.t) :
  getOrderBook sdk marketAddress depth st = (Ok orderBook, st') ->
  exists market st0,
    getMarket sdk marketAddress st = (Ok market, st0)
    /\ getOrderBook sdk marketAddress depth st0 = (Ok orderBook, st').
Proof.
  unfold getOrderBook. intros H.
  apply tryCatch_inv in H as [(a & H & [= <-]) | (m & st1 & _ & H)];
    [| discriminate H].
  apply bind_Ok_inv in H as (market & st0 & Hmarket & Hrest).
  exists market, st0. split; [exact Hmarket |].
  apply tryCatch_Ok. erewrite bind_Ok; [exact Hrest |].
  apply getMarket_hit. eapply getMarket_Ok_cached. exact Hmarket.
Qed.


(** ** The claims on the demonstration market *)



Lemma getOrderBook_spread_witness :
  OrderBook.spread Demo.thinBook
  = bestPrice (OrderBook.asks Demo.thinBook)
    - bestPrice (OrderBook.bids Demo.thinBook)
  /\ OrderBook.spread Demo.thinBook
     == bestPrice (OrderBook.asks Demo.thinBook).
Proof.
  assert (getOrderBook Demo.sdk "THIN" None Demo.start
          = (Ok Demo.thinBook,
             snd (getOrderBook Demo.sdk "THIN" None Demo.start))) as Hrun
      by (vm_compute; reflexivity).
  destruct (getOrderBook_spread Demo.sdk "THIN" None Demo.start _
              Demo.thinBook Hrun) as (Hspread & _ & Hbids & _).
  split; [exact Hspread | apply Hbids; reflexivity].
Defined.

(** C1, as stated, fails on a book without bids: the spread of ["THIN"]
    is its best ask, 100, not 0. *)
Lemma getOrderBook_spread_counterexample :
  fst (getOrderBook Demo.sdk "THIN" None Demo.start) = Ok Demo.thinBook
  /\ OrderBook.bids Demo.thinBook = []
  /\ OrderBook.spread Demo.thinBook == 100
  /\ ~ OrderBook.spread Demo.thinBook == 0.
Proof.
  repeat split; try (vm_compute; reflexivity).
  vm_compute. discriminate.
Qed.

Lemma getOrderBook_spreadPercentage_witness :
  OrderBook.spreadPercentage Demo.book
  = OrderBook.spread Demo.book / bestPrice (OrderBook.bids Demo.book) * 100
  /\ OrderBook.spreadPercentage Demo.thinBook = 0.
Proof.
  assert (getOrderBook Demo.sdk "SOL/USDC" None Demo.start
          = (Ok Demo.book, Demo.afterBook)) as Hrun
      by (vm_compute; reflexivity).
  assert (getOrderBook Demo.sdk "THIN" None Demo.start
          = (Ok Demo.thinBook,
             snd (getOrderBook Demo.sdk "THIN" None Demo.start))) as Hthin
      by (vm_compute; reflexivity).
  split.
  - apply (getOrderBook_spreadPercentage Demo.sdk "SOL/USDC" None Demo.start
             Demo.afterBook Demo.book Hrun).
    reflexivity.
  - apply (getOrderBook_spreadPercentage Demo.sdk "THIN" None Demo.start
             _ Demo.thinBook Hthin).
    reflexivity.
Defined.



Lemma getMarketStats_priceChange_witness :
  mostRecentFirst Demo.trades
  /\ exists latest rest oldest before after,
       Demo.trades = latest :: rest
       /\ Demo.trades = before ++ oldest :: after
       /\ Stats.priceChange
            (marketStats "SOL/USDC" Demo.book Demo.trades
               1700000001003 1700000001004)
          = num_mul
              (jsdiv (Trade.price latest - Trade.price oldest)
                     (Trade.price oldest))
              (Fin 100)
       /\ (forall trade, In trade Demo.trades ->
             (Trade.time trade <= Trade.time latest)%Z)
       /\ (forall trade, In trade Demo.trades ->
             (1700000001003 - 86400000 <= Trade.time trade)%Z ->
             (Trade.time oldest <= Trade.time trade)%Z).
Proof.
  assert (mostRecentFirst Demo.trades) as Hsorted.
  { unfold mostRecentFirst.
    repeat constructor; vm_compute; discriminate. }
  split; [exact Hsorted |].
  destruct (getMarketStats_priceChange "SOL/USDC" Demo.book Demo.trades
              1700000001003 1700000001004) as [_ Hchange].
  destruct Hchange
    as (latest & rest & oldest & before & after
        & Hhead & Hsplit & _ & _ & Hvalue & Horder).
  { exists (Trade.mk 110 2 "buy" 1700000000000 (1 # 100) "SOL/USDC").
    split; [left; reflexivity | vm_compute; discriminate]. }
  exists latest, rest, oldest, before, after.
  destruct (Horder Hsorted) as [Hlatest Holdest].
  repeat split; assumption.
Defined.

Lemma getMarketStats_volume24h_witness :
  Stats.volume24h
    (marketStats "SOL/USDC" Demo.book Demo.trades
       1700000001003 1700000001004)
  == Stats.volume24h
       (marketStats "SOL/USDC" Demo.book (firstn 2 Demo.trades)
          1700000001003 1700000001004)
  /\ Stats.volume24h
       (marketStats "SOL/USDC" Demo.book (firstn 2 Demo.trades)
          1700000001003 1700000001004)
     == Stats.volume24h
          (marketStats "SOL/USDC" Demo.book (firstn 1 Demo.trades)
             1700000001003 1700000001004)
        + 100 * 3.
Proof.
  destruct (getMarketStats_volume24h "SOL/USDC" Demo.book Demo.trades
              1700000001003 1700000001004) as (_ & Hin & Hout).
  split.
  - apply (Hout (firstn 2 Demo.trades)
             (Trade.mk 50 7 "buy" 1699000000000 (1 # 100) "SOL/USDC") []).
    reflexivity.
  - apply (Hin (firstn 1 Demo.trades)
             (Trade.mk 100 3 "sell" 1699990000000 (1 # 100) "SOL/USDC") []).
    vm_compute. discriminate.
Defined.

Lemma placeLimitOrder_default_selfTradeBehavior_witness :
  (exists issued,
     calls (snd (placeLimitOrder Demo.sdk Demo.bid Demo.start))
     = calls Demo.start ++ issued
     /\ forall market args,
          In (CallMakePlaceOrderInstruction Demo.sdk market args) issued ->
          PlaceOrderArgs.selfTradeBehavior args = "decrementTake")
  /\ exists before market args instruction conn,
       PlaceOrderArgs.selfTradeBehavior args = "decrementTake"
       /\ makePlaceOrderInstruction Demo.sdk market args = Ok instruction
       /\ calls (snd (placeLimitOrder Demo.sdk Demo.bid Demo.start))
          = before
            ++ [CallMakePlaceOrderInstruction Demo.sdk market args;
                CallSendTransaction Demo.sdk conn [instruction]
                  [LimitOrder.wallet Demo.bid] false "confirmed"].
Proof.
  assert (LimitOrder.selfTradeBehavior Demo.bid = None) as Hnone
      by reflexivity.
  assert (placeLimitOrder Demo.sdk Demo.bid Demo.start
          = (Ok (Success "txid"
                   (Placed.mk "SOL/USDC" "buy" (Fin 99) (Fin 2) "limit" None)),
             snd (placeLimitOrder Demo.sdk Demo.bid Demo.start))) as Hrun
      by (vm_compute; reflexivity).
  destruct (placeLimitOrder_default_selfTradeBehavior Demo.sdk Demo.bid
              Demo.start _ _ Hnone Hrun) as [Hissued Hsent].
  split; [exact Hissued |].
  exact (Hsent _ _ eq_refl).
Defined.



(** * Further properties *)

(** ** More on the estimate *)












(** ** More on the statistics *)

Lemma maxOf_spec (others : list Q) (first : Q) :
  In (maxOf first others) (first :: others)
  /\ forall x, In x (first :: others) -> x <= maxOf first others.
Proof.
  unfold maxOf. revert first.
  induction others as [| x others IH]; intros first; simpl.
  - split; [now left | intros y [<- | []]; lra].
  - destruct (IH (Qmax first x)) as [Hin Hall]. split.
    + destruct Hin as [Heq | Hin]; [| now right; right].
      rewrite <- Heq. unfold Qmax, GenericMinMax.gmax.
      destruct (Qcompare first x); auto.
    + intros y Hy.
      assert (Qmax first x <= fold_left Qmax others (Qmax first x)) as Hm
          by (apply Hall; now left).
      destruct Hy as [<- | [<- | Hy]].
      * pose proof (Q.le_max_l first x). lra.
      * pose proof (Q.le_max_r first x). lra.
      * apply Hall. now right.
Qed.

Lemma minOf_spec (others : list Q) (first : Q) :
  In (minOf first others) (first :: others)
  /\ forall x, In x (first :: others) -> minOf first others <= x.
Proof.
  unfold minOf. revert first.
  induction others as [| x others IH]; intros first; simpl.
  - split; [now left | intros y [<- | []]; lra].
  - destruct (IH (Qmin first x)) as [Hin Hall]. split.
    + destruct Hin as [Heq | Hin]; [| now right; right].
      rewrite <- Heq. unfold Qmin, GenericMinMax.gmin.
      destruct (Qcompare first x); auto.
    + intros y Hy.
      assert (fold_left Qmin others (Qmin first x) <= Qmin first x) as Hm
          by (apply Hall; now left).
      destruct Hy as [<- | [<- | Hy]].
      * pose proof (Q.le_min_l first x). lra.
      * pose proof (Q.le_min_r first x). lra.
      * apply Hall. now right.
Qed.

Lemma in_window_filter (now : Z) (recentTrades : list Trade.t)
    (trade : Trade.t) :
  In trade (List.filter (inWindow (now - oneDay)) recentTrades)
  <-> In trade recentTrades /\ (now - 86400000 <= Trade.time trade)%Z.
Proof. rewrite filter_In, inWindow_iff. reflexivity. Qed.

(** X4.  The 24-hour high and low of [getMarketStats]: when some trade is
    within the 24 hours before now, the high is the price of one of the
    trades in the window and no trade in the window has a higher price,
    and likewise the low; when no trade is in the window, both are the
    last price. *)
Theorem getMarketStats_high_low
    (marketAddress : string) (orderBook : OrderBook.t)
    (recentTrades : list Trade.t) (now updated : Z) :
  let stats := marketStats marketAddress orderBook recentTrades now updated in
  let within trade :=
    In trade recentTrades /\ (now - 86400000 <= Trade.time trade)%Z in
  ((forall trade, ~ within trade) ->
   Stats.high24h stats = Stats.lastPrice stats
   /\ Stats.low24h stats = Stats.lastPrice stats)
  /\ ((exists trade, within trade) ->
      (exists highest, within highest
                       /\ Stats.high24h stats = Trade.price highest)
      /\ (exists lowest, within lowest
                         /\ Stats.low24h stats = Trade.price lowest)
      /\ forall trade, within trade ->
           Stats.low24h stats <= Trade.price trade
           /\ Trade.price trade <= Stats.high24h stats).
Proof.
  intros stats within. unfold stats, within. simpl.
  pose proof (in_window_filter now recentTrades) as Hfilter.
  destruct (List.filter (inWindow (now - oneDay)) recentTrades)
    as [| first others]; simpl.
  - split; [intros _; split; reflexivity |].
    intros (trade & Ht). apply Hfilter in Ht. destruct Ht.
  - split.
    { intros Hnone. exfalso. apply (Hnone first). apply Hfilter. now left. }
    intros _.
    destruct (maxOf_spec (map Trade.price others) (Trade.price first))
      as [Hmax_in Hmax].
    destruct (minOf_spec (map Trade.price others) (Trade.price first))
      as [Hmin_in Hmin].
    change (Trade.price first :: map Trade.price others)
      with (map Trade.price (first :: others)) in *.
    apply in_map_iff in Hmax_in as (highest & Hh & Hhin).
    apply in_map_iff in Hmin_in as (lowest & Hl & Hlin).
    split; [exists highest; split; [now apply Hfilter | now symmetry] |].
    split; [exists lowest; split; [now apply Hfilter | now symmetry] |].
    intros trade Ht. apply Hfilter in Ht.
    split; [apply Hmin | apply Hmax]; now apply in_map.
Qed.





(** ** More on the order book snapshot *)

(** X7.  The sign of the spread in a snapshot returned by [getOrderBook]
    with a positive best bid: with no asks at all the spread is minus the
    best bid and the spread percentage is -100; with a best ask below the
    best bid both are negative; with a best ask at or above the best bid
    neither is. *)
Theorem getOrderBook_spread_sign (sdk : Sdk) (marketAddress : string)
    (depth : option Z) (st st' : State sdk) (orderBook : OrderBook.t) :
  getOrderBook sdk marketAddress depth st = (Ok orderBook, st') ->
  0 < bestPrice (OrderBook.bids orderBook) ->
  let bestBid := bestPrice (OrderBook.bids orderBook) in
  let bestAsk := bestPrice (OrderBook.asks orderBook) in
  (OrderBook.asks orderBook = [] ->
   OrderBook.spread orderBook == - bestBid
   /\ OrderBook.spreadPercentage orderBook == - (100))
  /\ (bestAsk < bestBid ->
      OrderBook.spread orderBook < 0
      /\ OrderBook.spreadPercentage orderBook < 0)
  /\ (bestBid <= bestAsk ->
      0 <= OrderBook.spread orderBook
      /\ 0 <= OrderBook.spreadPercentage orderBook).
Proof.
  intros H. apply getOrderBook_inv in H as (bidsL2 & asksL2 & timestamp & ->).
  simpl.
  set (bidItems := map _ bidsL2). set (askItems := map _ asksL2).
  intros Hpos. pose proof (proj2 (Qgt_bool_true _ _) Hpos) as Hgt.
  rewrite Hgt.
  assert (~ bestPrice bidItems == 0) as Hnz by lra.
  split; [| split].
  - intros ->. simpl. split; [ring | field; exact Hnz].
  - intros Hcross. split; [lra |].
    assert ((bestPrice askItems - bestPrice bidItems) / bestPrice bidItems < 0)
      as Hq.
    { apply Qlt_shift_div_r; [exact Hpos | lra]. }
    lra.
  - intros Hok. split; [lra |].
    assert (0 <= (bestPrice askItems - bestPrice bidItems)
                 / bestPrice bidItems) as Hq.
    { apply Qle_shift_div_l; [exact Hpos | lra]. }
    lra.
Qed.

(** ** The querying operations *)

(** X8.  The query methods ([getMarket], [getOrderBook], [getOpenOrders],
    [getRecentTrades], [getMarketStats]) only read: whatever they resolve
    to, and in any sequence, every call they issue is a read request; no
    instruction is built and no transaction is sent or confirmed. *)
Theorem queries_only_read (sdk : Sdk) (ops : list (Operation sdk))
    (st : State sdk) :
  forallb isQuery ops = true ->
  exists issued,
    calls (performAll sdk ops st) = calls st ++ issued
    /\ Forall (fun call => isRead call = true) issued.
Proof.
  set (reads := fun call : Call sdk => isRead call = true).
  assert (forall call : Call sdk, isRead call = true -> reads call) as Hread
      by (intros call H; exact H).
  revert st. induction ops as [| op ops IH]; intros st Hq.
  - exists []. split; [symmetry; apply app_nil_r | constructor].
  - change (performAll sdk (op :: ops) st)
      with (performAll sdk ops (perform sdk op st)).
    simpl in Hq. apply andb_prop in Hq as [Hop Hops].
    assert (extends reads st (perform sdk op st)) as [_ (i1 & E1 & F1)].
    { destruct op; try discriminate Hop; simpl;
        match goal with
        | |- extends _ ?st (snd (?m ?st)) =>
            destruct (m st) as [r st'] eqn:E; simpl; revert E
        end.
      - now apply respects_getMarket.
      - now apply respects_getOrderBook.
      - now apply respects_getOpenOrders.
      - now apply respects_getRecentTrades.
      - now apply respects_getMarketStats. }
    destruct (IH (perform sdk op st) Hops) as (i2 & E2 & F2).
    exists (i1 ++ i2). split.
    + rewrite E2, E1. symmetry. apply app_assoc.
    + apply Forall_app. split; assumption.
Qed.

(** ** How errors travel *)



(** X10.  A market that fails to load fails every method that needs it,
    with the messages nested in the order of the calls: [getOrderBook]
    rejects with ["Failed to fetch order book: Failed to load market:
    ..."], and [getMarketStats], which asks for the market first, with
    ["Failed to fetch market stats: Failed to load market: ..."]; the
    state is the one the failed load left. *)
Theorem failed_market_load_propagates (sdk : Sdk) (marketAddress : string)
    (st st' : State sdk) (message : string) :
  getMarket sdk marketAddress st = (Throw message, st') ->
  (forall depth,
     getOrderBook sdk marketAddress depth st
     = (Throw ("Failed to fetch order book: " ++ message)%string, st'))
  /\ (forall limit,
        getRecentTrades sdk marketAddress limit st
        = (Throw ("Failed to fetch recent trades: " ++ message)%string, st'))
  /\ (forall walletAddress,
        getOpenOrders sdk (OpenOrdersQuery.mk marketAddress walletAddress) st
        = (Throw ("Failed to fetch open orders: " ++ message)%string, st'))
  /\ getMarketStats sdk marketAddress st
     = (Throw ("Failed to fetch market stats: " ++ message)%string, st').
Proof.
  intros H. repeat split; intros.
  - unfold getOrderBook.
    erewrite tryCatch_Throw; [reflexivity | now apply bind_Throw].
  - unfold getRecentTrades.
    erewrite tryCatch_Throw; [reflexivity | now apply bind_Throw].
  - unfold getOpenOrders. simpl.
    erewrite tryCatch_Throw; [reflexivity | now apply bind_Throw].
  - unfold getMarketStats.
    erewrite tryCatch_Throw; [reflexivity | now apply bind_Throw].
Qed.

(** ** Recent trades *)



(** ** More on the mutating operations *)

(** Taking the steps of a run apart: what each request returned, and the
    state it left. *)
Ltac run_more :=
  repeat match goal with
    | H : getThis _ _ = (_, _) |- _ =>
        unfold getThis in H; inversion H; clear H; subst
    | H : liftRes _ _ = (_, _) |- _ =>
        unfold liftRes in H; inversion H; clear H; subst
    | H : now _ _ = (_, _) |- _ =>
        unfold now in H; inversion H; clear H; subst
    | H : rpc _ _ _ = (_, _) |- _ =>
        let w := fresh "w" in
        let Hw := fresh "Hreq" in
        apply rpc_inv in H as (w & Hw & ->); simpl in *
    | H : build _ _ _ = (_, _) |- _ =>
        let Hb := fresh "Hbuilt" in
        apply build_inv in H as [Hb ->]; simpl in *
    | H : firstAddress _ ?accounts _ = (Ok _, _) |- _ =>
        destruct accounts; [discriminate H |];
        unfold firstAddress, ret in H; inversion H; clear H; subst
    end.


Section MoreMutations.

Context {sdk : Sdk}.

(** Everything a successful [placeLimitOrder] did after it had the
    market. *)
Lemma placeLimitOrder_run (params : LimitOrder.t (Wallet sdk))
    (st st' : State sdk) (txid : string) (echo : Placed.t) :
  placeLimitOrder sdk params st = (Ok (Success txid echo), st') ->
  exists market st1 account priceLots sizeLots clientIdBN instruction,
    let wallet := LimitOrder.wallet params in
    let conn := connection (this st1) in
    let find :=
      CallFindOpenOrdersAccountsForOwner sdk market conn
        (publicKey sdk wallet) in
    let args :=
      PlaceOrderArgs.mk (publicKey sdk wallet)
        (if String.eqb (LimitOrder.side params) "buy"
         then publicKey sdk wallet
         else OpenOrdersAccount.address account)
        (LimitOrder.side params) priceLots sizeLots
        (default "limit" (LimitOrder.orderType params)) clientIdBN
        (OpenOrdersAccount.address account)
        (feeDiscountPubkey (this st1))
        (default "decrementTake" (LimitOrder.selfTradeBehavior params)) in
    let place :=
      [CallMakePlaceOrderInstruction sdk market args;
       CallSendTransaction sdk conn [instruction] [wallet] false
         "confirmed"] in
    getMarket sdk (LimitOrder.marketAddress params) st = (Ok market, st1)
    /\ this st' = this st1
    /\ priceNumberToLots sdk market (LimitOrder.price params) = Ok priceLots
    /\ baseSizeNumberToLots sdk market (LimitOrder.size params) = Ok sizeLots
    /\ clientIdArgument sdk (LimitOrder.clientId params) clientIdBN
    /\ makePlaceOrderInstruction sdk market args = Ok instruction
    /\ ((exists others w,
           findOpenOrdersAccountsForOwner sdk market conn
             (publicKey sdk wallet) (world st1)
           = (Ok (account :: others), w)
           /\ calls st' = calls st1 ++ find :: place)
        \/ (exists create createTxid others w wa wb wc wd,
              findOpenOrdersAccountsForOwner sdk market conn
                (publicKey sdk wallet) (world st1)
              = (Ok [], w)
              /\ makeCreateAccountTransaction sdk conn
                   (Market_address sdk market) (publicKey sdk wallet)
                   (marketProgramId (this st1)) w
                 = (Ok create, wa)
              /\ sendTransaction sdk conn [create] [wallet] false
                   "processed" wa
                 = (Ok createTxid, wb)
              /\ confirmTransaction sdk conn createTxid wb = (Ok tt, wc)
              /\ findOpenOrdersAccountsForOwner sdk market conn
                   (publicKey sdk wallet) wc
                 = (Ok (account :: others), wd)
              /\ calls st'
                 = calls st1
                   ++ [find;
                       CallMakeCreateAccountTransaction sdk conn
                         (Market_address sdk market) (publicKey sdk wallet)
                         (marketProgramId (this st1));
                       CallSendTransaction sdk conn [create] [wallet] false
                         "processed";
                       CallConfirmTransaction sdk conn createTxid;
                       find]
                   ++ place)).
Proof.
  unfold placeLimitOrder. intros H. run_inv. run_more.
  match goal with
  | H : match ?found with [] => _ | _ :: _ => _ end _ = _ |- _ =>
      destruct found
  end; run_inv; run_more.
  all: match goal with
       | H : (if truthy ?c then _ else _) _ = _ |- _ =>
           destruct (truthy c) eqn:Hclient
       end; run_inv; run_more.
  all: match goal with
       | Hm : getMarket _ _ _ = (Ok ?market, ?st1),
         Hp : priceNumberToLots _ _ _ = Ok ?priceLots,
         Hs : baseSizeNumberToLots _ _ _ = Ok ?sizeLots,
         Hb : Ok ?instruction = makePlaceOrderInstruction _ _ ?args |- _ =>
           exists market, st1;
           match args with
           | PlaceOrderArgs.mk _ _ _ _ _ _ ?bn
               (OpenOrdersAccount.address ?account) _ _ =>
               exists account, priceLots, sizeLots, bn, instruction
           end
       end; cbv zeta.
  all: repeat match goal with
         | |- _ /\ _ => split
         end;
       try eassumption; try reflexivity; try (symmetry; eassumption).
  all: try (unfold clientIdArgument; rewrite Hclient; now eauto).
  all: first
         [ left; do 2 eexists; split; [eassumption |];
           simpl; rewrite <- ?app_assoc; reflexivity
         | right;
           repeat match goal with u : unit |- _ => destruct u end;
           do 8 eexists; repeat (split; [eassumption |]);
           simpl; rewrite <- ?app_assoc; reflexivity ].
Qed.

(** X12.  The instruction of a successful [placeLimitOrder]: the owner is
    the wallet; the payer is the wallet for a buy and the open-orders
    account for any other side; price and size are the lots the market
    converts the given numbers to; the client id is a [BN] only when a
    truthy one was given; the fee-discount key is the one of the
    instance; and the transaction sent holds this instruction alone. *)
Theorem placeLimitOrder_instruction (params : LimitOrder.t (Wallet sdk))
    (st st' : State sdk) (txid : string) (echo : Placed.t) :
  placeLimitOrder sdk params st = (Ok (Success txid echo), st') ->
  exists before market args instruction conn,
    calls st'
    = before
      ++ [CallMakePlaceOrderInstruction sdk market args;
          CallSendTransaction sdk conn [instruction]
            [LimitOrder.wallet params] false "confirmed"]
    /\ makePlaceOrderInstruction sdk market args = Ok instruction
    /\ PlaceOrderArgs.owner args = publicKey sdk (LimitOrder.wallet params)
    /\ PlaceOrderArgs.payer args
       = (if String.eqb (LimitOrder.side params) "buy"
          then publicKey sdk (LimitOrder.wallet params)
          else PlaceOrderArgs.openOrdersAddressKey args)
    /\ PlaceOrderArgs.side args = LimitOrder.side params
    /\ priceNumberToLots sdk market (LimitOrder.price params)
       = Ok (PlaceOrderArgs.price args)
    /\ baseSizeNumberToLots sdk market (LimitOrder.size params)
       = Ok (PlaceOrderArgs.size args)
    /\ PlaceOrderArgs.orderType args
       = default "limit" (LimitOrder.orderType params)
    /\ clientIdArgument sdk (LimitOrder.clientId params)
         (PlaceOrderArgs.clientId args)
    /\ PlaceOrderArgs.feeDiscountPubkey args = feeDiscountPubkey (this st').
Proof.
  intros H. apply placeLimitOrder_run in H
    as (market & st1 & account & priceLots & sizeLots & clientIdBN
        & instruction & _ & Hthis & Hprice & Hsize & Hclient & Hbuilt
        & Htrace).
  cbv zeta in *.
  destruct Htrace as [(others & w & _ & ->)
                     | (create & createTxid & others & w & wa & wb & wc & wd
                        & _ & _ & _ & _ & _ & ->)].
  - eexists (calls st1 ++ [_]), market, _, instruction, _.
    split; [rewrite <- app_assoc; reflexivity |].
    rewrite Hthis. repeat split; assumption.
  - eexists (calls st1 ++ [_; _; _; _; _]), market, _, instruction, _.
    split; [rewrite <- app_assoc; reflexivity |].
    rewrite Hthis. repeat split; assumption.
Qed.

(** X13.  The requests of a successful [placeLimitOrder], after it has
    the market.  When the owner has an open-orders account: the lookup,
    the instruction, the order.  When the lookup finds none: the lookup,
    a create-account instruction, its transaction sent with commitment
    ["processed"], the confirmation of that very transaction, a second
    lookup that finds an account, and only then the instruction and the
    order.  In both cases the order uses the first account found. *)
Theorem placeLimitOrder_account_protocol (params : LimitOrder.t (Wallet sdk))
    (st st' : State sdk) (txid : string) (echo : Placed.t) :
  placeLimitOrder sdk params st = (Ok (Success txid echo), st') ->
  exists market st1 account args instruction,
    let wallet := LimitOrder.wallet params in
    let conn := connection (this st1) in
    let find :=
      CallFindOpenOrdersAccountsForOwner sdk market conn
        (publicKey sdk wallet) in
    let place :=
      [CallMakePlaceOrderInstruction sdk market args;
       CallSendTransaction sdk conn [instruction] [wallet] false
         "confirmed"] in
    getMarket sdk (LimitOrder.marketAddress params) st = (Ok market, st1)
    /\ PlaceOrderArgs.openOrdersAddressKey args
       = OpenOrdersAccount.address account
    /\ ((exists others w,
           findOpenOrdersAccountsForOwner sdk market conn
             (publicKey sdk wallet) (world st1)
           = (Ok (account :: others), w)
           /\ calls st' = calls st1 ++ find :: place)
        \/ (exists create createTxid others w wa wb wc wd,
              findOpenOrdersAccountsForOwner sdk market conn
                (publicKey sdk wallet) (world st1)
              = (Ok [], w)
              /\ makeCreateAccountTransaction sdk conn
                   (Market_address sdk market) (publicKey sdk wallet)
                   (marketProgramId (this st1)) w
                 = (Ok create, wa)
              /\ sendTransaction sdk conn [create] [wallet] false
                   "processed" wa
                 = (Ok createTxid, wb)
              /\ confirmTransaction sdk conn createTxid wb = (Ok tt, wc)
              /\ findOpenOrdersAccountsForOwner sdk market conn
                   (publicKey sdk wallet) wc
                 = (Ok (account :: others), wd)
              /\ calls st'
                 = calls st1
                   ++ [find;
                       CallMakeCreateAccountTransaction sdk conn
                         (Market_address sdk market) (publicKey sdk wallet)
                         (marketProgramId (this st1));
                       CallSendTransaction sdk conn [create] [wallet] false
                         "processed";
                       CallConfirmTransaction sdk conn createTxid;
                       find]
                   ++ place)).
Proof.
  intros H. apply placeLimitOrder_run in H
    as (market & st1 & account & priceLots & sizeLots & clientIdBN
        & instruction & Hmarket & _ & _ & _ & _ & _ & Htrace).
  cbv zeta in *.
  exists market, st1, account,
    (PlaceOrderArgs.mk (publicKey sdk (LimitOrder.wallet params))
       (if String.eqb (LimitOrder.side params) "buy"
        then publicKey sdk (LimitOrder.wallet params)
        else OpenOrdersAccount.address account)
       (LimitOrder.side params) priceLots sizeLots
       (default "limit" (LimitOrder.orderType params)) clientIdBN
       (OpenOrdersAccount.address account) (feeDiscountPubkey (this st1))
       (default "decrementTake" (LimitOrder.selfTradeBehavior params))),
    instruction.
  split; [exact Hmarket |]. split; [reflexivity |]. exact Htrace.
Qed.

End MoreMutations.

Section Loops.

Context {sdk : Sdk}.

(** A loop whose every round issues one call and leaves the instance
    alone: what it collects, round by round, and the calls it issues. *)
Lemma forEach_rounds {A B : Type} (body : A -> M sdk B)
    (round : A -> B -> Prop) (call : A -> Call sdk) (items : list A) :
  (forall item s b s',
     body item s = (Ok b, s') ->
     round item b /\ this s' = this s /\ calls s' = calls s ++ [call item]) ->
  forall st bs st',
    forEach body items st = (Ok bs, st') ->
    Forall2 round items bs
    /\ this st' = this st
    /\ calls st' = calls st ++ map call items.
Proof.
  intros Hbody. induction items as [| item rest IH]; intros st bs st' H.
  - inversion H; subst. simpl. rewrite app_nil_r. auto.
  - simpl in H. run_inv.
    match goal with
    | Hb : body item _ = _, Hr : forEach body rest _ = _ |- _ =>
        apply Hbody in Hb as (Hround & Hthis & Hcalls);
        apply IH in Hr as (Hrounds & Hthis' & Hcalls')
    end.
    split; [constructor; assumption |]. split; [congruence |].
    rewrite Hcalls', Hcalls. simpl. rewrite <- app_assoc. reflexivity.
Qed.

End Loops.

Section MoreOperations.

Context {sdk : Sdk}.

(** X14.  The account of a successful [cancelOrder].  When
    [openOrdersAddress] is given, the instruction names the key of that
    address and no lookup is made: after the market, the instance issues
    the instruction and the transaction only.  Otherwise it looks the
    owner's accounts up and names the first.  The order id is the [BN] of
    the given id, the owner is the wallet, and the transaction holds this
    one instruction. *)
Theorem cancelOrder_account (params : Cancel.t (Wallet sdk))
    (st st' : State sdk) (txid : string) (echo : Cancelled.t) :
  cancelOrder sdk params st = (Ok (Success txid echo), st') ->
  exists market st1 openOrders orderIdBN instruction,
    let wallet := Cancel.wallet params in
    let conn := connection (this st1) in
    let cancel :=
      [CallMakeCancelOrderInstruction sdk market
         (CancelOrderArgs.mk (publicKey sdk wallet) openOrders orderIdBN
            (Cancel.side params));
       CallSendTransaction sdk conn [instruction] [wallet] false
         "confirmed"] in
    getMarket sdk (Cancel.marketAddress params) st = (Ok market, st1)
    /\ new_BN sdk (Cancel.orderId params) = Ok orderIdBN
    /\ makeCancelOrderInstruction sdk market
         (CancelOrderArgs.mk (publicKey sdk wallet) openOrders orderIdBN
            (Cancel.side params))
       = Ok instruction
    /\ ((truthy (Cancel.openOrdersAddress params) = true
         /\ new_PublicKey sdk (orElse (Cancel.openOrdersAddress params) "")
            = Ok openOrders
         /\ calls st' = calls st1 ++ cancel)
        \/ (truthy (Cancel.openOrdersAddress params) = false
            /\ exists account others w,
                 findOpenOrdersAccountsForOwner sdk market conn
                   (publicKey sdk wallet) (world st1)
                 = (Ok (account :: others), w)
                 /\ openOrders = OpenOrdersAccount.address account
                 /\ calls st'
                    = calls st1
                      ++ CallFindOpenOrdersAccountsForOwner sdk market conn
                           (publicKey sdk wallet)
                         :: cancel)).
Proof.
  unfold cancelOrder. intros H. run_inv. run_more.
  match goal with
  | H : (if truthy ?c then _ else _) _ = _ |- _ =>
      destruct (truthy c) eqn:Haddress
  end; run_inv; run_more.
  - do 5 eexists. cbv zeta.
    split; [eassumption |]. split; [eassumption |].
    split; [symmetry; eassumption |].
    left. split; [reflexivity |]. split; [eassumption |].
    simpl. rewrite <- app_assoc. reflexivity.
  - do 5 eexists. cbv zeta.
    split; [eassumption |]. split; [eassumption |].
    split; [symmetry; eassumption |].
    right. split; [reflexivity |]. do 3 eexists.
    split; [eassumption |]. split; [reflexivity |].
    simpl. rewrite <- !app_assoc. reflexivity.
Qed.

(** X15.  [settleFunds] without a given address, for an owner who has no
    open-orders account: it resolves to [{ success: false, error: 'No
    open orders account found' }] right after the lookup; no settle
    instruction is asked for and no transaction is sent. *)
Theorem settleFunds_without_account (params : Settle.t (Wallet sdk))
    (st st1 : State sdk) (market : Market sdk) (w : World sdk) :
  truthy (Settle.openOrdersAddress params) = false ->
  getMarket sdk (Settle.marketAddress params) st = (Ok market, st1) ->
  findOpenOrdersAccountsForOwner sdk market (connection (this st1))
    (publicKey sdk (Settle.wallet params)) (world st1)
  = (Ok [], w) ->
  settleFunds sdk params st
  = (Ok (Failure "No open orders account found"),
     mkState (this st1) w
       (calls st1
        ++ [CallFindOpenOrdersAccountsForOwner sdk market
              (connection (this st1))
              (publicKey sdk (Settle.wallet params))])).
Proof.
  intros Haddress Hmarket Hfind. unfold settleFunds.
  rewrite Haddress.
  erewrite tryCatch_Ok; [reflexivity |].
  erewrite bind_Ok by exact Hmarket.
  unfold bind at 1. unfold getThis.
  unfold bind at 1. unfold rpc. rewrite Hfind. reflexivity.
Qed.


Lemma settleInstruction_round (market : Market sdk) (conn : string)
    (wallet : Wallet sdk)
    (account : OpenOrdersAccount.t (PublicKey sdk))
    (s : State sdk) (instruction : Instruction sdk) (s' : State sdk) :
  settleInstruction sdk market conn wallet account s = (Ok instruction, s') ->
  settled market conn wallet account instruction
  /\ this s' = this s
  /\ calls s'
     = calls s
       ++ [CallMakeSettleFundsTransaction sdk market conn account
             (publicKey sdk wallet) (publicKey sdk wallet)].
Proof.
  unfold settleInstruction. intros H. run_inv. run_more.
  match goal with
  | H : match instructions sdk ?settle with [] => _ | _ :: _ => _ end _ = _
    |- _ => destruct (instructions sdk settle) eqn:E; [discriminate H |]
  end.
  run_inv. simpl. split; [| auto].
  do 3 eexists. split; [eassumption |]. rewrite E. reflexivity.
Qed.

(** X16.  A successful [settleFunds] sends one transaction, and it holds
    exactly one instruction per open-orders account, in the order of the
    accounts: the first instruction of the settle transaction the SDK
    made for that account, with the wallet as base and quote wallet.
    The accounts are the single key of [openOrdersAddress] when it is
    given, and what the lookup finds otherwise. *)
Theorem settleFunds_one_instruction_per_account
    (params : Settle.t (Wallet sdk))
    (st st' : State sdk) (txid : string) (echo : Settled.t) :
  settleFunds sdk params st = (Ok (Success txid echo), st') ->
  exists market st1 accounts transaction lookup,
    let wallet := Settle.wallet params in
    let conn := connection (this st1) in
    getMarket sdk (Settle.marketAddress params) st = (Ok market, st1)
    /\ accounts <> []
    /\ Forall2 (settled market conn wallet) accounts transaction
    /\ length transaction = length accounts
    /\ calls st'
       = calls st1 ++ lookup
         ++ map (fun account =>
                   CallMakeSettleFundsTransaction sdk market conn account
                     (publicKey sdk wallet) (publicKey sdk wallet))
              accounts
         ++ [CallSendTransaction sdk conn transaction [wallet] false
               "confirmed"]
    /\ ((truthy (Settle.openOrdersAddress params) = true
         /\ lookup = []
         /\ exists address,
              new_PublicKey sdk (orElse (Settle.openOrdersAddress params) "")
              = Ok address
              /\ accounts = [OpenOrdersAccount.mk address])
        \/ (truthy (Settle.openOrdersAddress params) = false
            /\ lookup
               = [CallFindOpenOrdersAccountsForOwner sdk market conn
                    (publicKey sdk wallet)]
            /\ exists w,
                 findOpenOrdersAccountsForOwner sdk market conn
                   (publicKey sdk wallet) (world st1)
                 = (Ok accounts, w))).
Proof.
  unfold settleFunds. intros H. run_inv.
  match goal with
  | H : match ?found with [] => _ | _ :: _ => _ end _ = _ |- _ =>
      destruct found as [| account others] eqn:Eaccounts; [discriminate H |]
  end.
  run_inv.
  match goal with
  | Hloop : forEach _ _ _ = (Ok _, _) |- _ =>
      apply (forEach_rounds _ _ _ _ (settleInstruction_round _ _ _)) in Hloop
        as (Hrounds & Hthis & Hcalls)
  end.
  match goal with
  | H : getThis _ _ = (_, _) |- _ =>
      unfold getThis in H; inversion H; clear H; subst
  end.
  match goal with
  | H : rpc (CallSendTransaction _ _ _ _ _ _) _ _ = (_, _) |- _ =>
      apply rpc_inv in H as (w & Hsent & ->)
  end.
  match goal with
  | Hm : getMarket _ _ _ = (Ok ?market, ?st1),
    Hl : calls ?s = calls _ ++ map _ _ |- _ =>
      exists market, st1, (account :: others)
  end.
  match goal with
  | H : (if truthy ?c then _ else _) _ = _ |- _ =>
      destruct (truthy c) eqn:Haddress
  end; run_inv; run_more.
  - eexists _, []. cbv zeta. simpl calls. rewrite Hcalls.
    split; [assumption |]. split; [discriminate |].
    split; [exact Hrounds |].
    split; [pose proof (Forall2_length _ _ _ Hrounds) as Hlen;
            simpl in *; congruence |].
    split; [rewrite <- !app_assoc; reflexivity |].
    left. repeat split. eexists. split; [eassumption |]. congruence.
  - eexists _, [_]. cbv zeta. simpl calls. rewrite Hcalls. simpl calls.
    split; [assumption |]. split; [discriminate |].
    split; [exact Hrounds |].
    split; [pose proof (Forall2_length _ _ _ Hrounds) as Hlen;
            simpl in *; congruence |].
    split; [rewrite <- !app_assoc; reflexivity |].
    right. repeat split. eexists. eassumption.
Qed.

End MoreOperations.

Section OpenOrders.

Context {sdk : Sdk}.




End OpenOrders.

Section MarketOrders.

Context {sdk : Sdk}.

(** A market order whose estimate succeeds is the limit order at 1.05
    times the estimate, placed in the state the snapshot left. *)
Lemma placeMarketOrder_as_limit_order (params : MarketOrder.t (Wallet sdk))
    (st st1 : State sdk) (orderBook : OrderBook.t) (estimatedPrice : num) :
  getOrderBook sdk (MarketOrder.marketAddress params) None st
  = (Ok orderBook, st1) ->
  estimateMarketOrderPrice
    (opposing (MarketOrder.side params) orderBook)
    (MarketOrder.size params) (MarketOrder.side params)
  = Ok estimatedPrice ->
  placeMarketOrder sdk params st
  = placeLimitOrder sdk
      (LimitOrder.mk (MarketOrder.marketAddress params)
         (MarketOrder.wallet params) (MarketOrder.side params)
         (num_mul estimatedPrice (Fin (105 # 100)))
         (Fin (MarketOrder.size params))
         (Some (default "ioc" (MarketOrder.orderType params)))
         (MarketOrder.clientId params) None)
      st1.
Proof.
  intros Hbook Hestimate.
  destruct (getOrderBook_after_getMarket _ _ _ _ _ Hbook)
    as (market & st0 & Hmarket & Hbook0).
  unfold placeMarketOrder.
  match goal with
  | |- _ = placeLimitOrder sdk ?limit st1 =>
      destruct (placeLimitOrder_total limit st1) as (result & st' & Hplaced);
      rewrite Hplaced
  end.
  apply tryCatch_Ok.
  erewrite bind_Ok by exact Hmarket.
  erewrite bind_Ok by exact Hbook0.
  erewrite bind_Ok; [exact Hplaced |].
  unfold liftRes. rewrite estimate_opposing, Hestimate. reflexivity.
Qed.


(** X19.  A market order of size 0 is not refused by the estimate: over a
    side of non-negative sizes, [placeMarketOrder] goes on to place a
    limit order of size 0 whose price is [NaN]. *)
Theorem placeMarketOrder_of_size_zero (params : MarketOrder.t (Wallet sdk))
    (st st1 : State sdk) (orderBook : OrderBook.t) :
  let side := MarketOrder.side params in
  getOrderBook sdk (MarketOrder.marketAddress params) None st
  = (Ok orderBook, st1) ->
  Forall (fun order => 0 <= Item.size order) (opposing side orderBook) ->
  MarketOrder.size params == 0 ->
  placeMarketOrder sdk params st
  = placeLimitOrder sdk
      (LimitOrder.mk (MarketOrder.marketAddress params)
         (MarketOrder.wallet params) side NaN
         (Fin (MarketOrder.size params))
         (Some (default "ioc" (MarketOrder.orderType params)))
         (MarketOrder.clientId params) None)
      st1.
Proof.
  intros side Hbook Hnn Hzero.
  assert (estimateMarketOrderPrice (opposing side orderBook)
            (MarketOrder.size params) side = Ok NaN) as Hret.
  { destruct (estimateMarketOrderPrice_cases _ (MarketOrder.size params)
                side Hnn) as [[Hlt _] | [_ ->]].
    - pose proof (totalSize_nonneg _ Hnn). lra.
    - f_equal. apply jsdiv_zero; [| exact Hzero].
      now apply walkOrders_zero. }
  now rewrite (placeMarketOrder_as_limit_order params st st1 orderBook
                 NaN Hbook Hret).
Qed.

(** X20.  What [getMarketStats] reports comes from one snapshot, taken
    right after the market was obtained, and from the fills of one
    [loadFills] request for 100 fills, made right after the snapshot: the
    24-hour volume counts these fills only; best bid, best ask, spread
    and spread percentage are those of the snapshot, so the reported
    spread is the reported best ask minus the reported best bid. *)
Theorem getMarketStats_sources (marketAddress : string)
    (st st' : State sdk) (stats : Stats.t) :
  getMarketStats sdk marketAddress st = (Ok stats, st') ->
  exists market st0 orderBook st1 fills,
    let now := Date_now sdk (world st') in
    getMarket sdk marketAddress st = (Ok market, st0)
    /\ getOrderBook sdk marketAddress None st0 = (Ok orderBook, st1)
    /\ loadFills sdk market (connection (this st1)) 100%Z (world st1)
       = (Ok fills, world st')
    /\ Stats.volume24h stats
       == volumeInWindow now (map (formatTrade marketAddress) fills)
    /\ Stats.marketAddress stats = marketAddress
    /\ Stats.bestBid stats = bestPrice (OrderBook.bids orderBook)
    /\ Stats.bestAsk stats = bestPrice (OrderBook.asks orderBook)
    /\ Stats.spreadPercentage stats = OrderBook.spreadPercentage orderBook
    /\ Stats.spread stats = Stats.bestAsk stats - Stats.bestBid stats.
Proof.
  unfold getMarketStats. intros H. run_inv.
  match goal with
  | Hm : getMarket _ _ st = (Ok ?market, ?st0),
    Hb : getOrderBook _ _ _ ?st0 = (Ok ?book, ?st1),
    Ht : getRecentTrades _ _ _ ?st1 = (Ok ?trades, _) |- _ =>
      pose proof (getOrderBook_inv _ _ _ _ _ Hb)
        as (bidsL2 & asksL2 & timestamp & Hshape);
      assert (marketCache (this st1) !! marketAddress = Some market)
        as Hcached;
      [ apply getMarket_Ok_cached in Hm;
        assert (respects (extends anyCall)
                  (getOrderBook sdk marketAddress None)) as Hr
            by (apply respects_getOrderBook; intros; exact I);
        destruct (Hr _ _ _ Hb) as [Hsub _];
        eapply lookup_weaken; eassumption
      | exists market, st0, book, st1;
        unfold getRecentTrades in Ht; run_inv ]
  end.
  match goal with
  | Hm : getMarket _ _ ?st1 = (Ok _, _) |- _ =>
      rewrite (getMarket_hit _ _ _ Hcached) in Hm;
      inversion Hm; clear Hm; subst
  end.
  run_more.
  eexists. cbv zeta. simpl world.
  split; [assumption |]. split; [assumption |]. split; [eassumption |].
  split; [rewrite fold_left_volume, volumeInWindow_filter; ring |].
  repeat split.
Qed.

End MarketOrders.

(** ** What a call leaves alone *)

Section Confined.

Context {sdk : Sdk} (marketAddress : string).

Lemma confined_refl (st : State sdk) : confined marketAddress st st.
Proof. repeat split. Qed.

Lemma confined_trans (st1 st2 st3 : State sdk) :
  confined marketAddress st1 st2 -> confined marketAddress st2 st3 ->
  confined marketAddress st1 st3.
Proof.
  intros (Ha & Hb & Hc & Hd) (Ha' & Hb' & Hc' & Hd').
  repeat split; try congruence.
  intros other Hne. rewrite Hd', Hd by exact Hne. reflexivity.
Qed.

Lemma keeps_ret {A : Type} (a : A) :
  respects (confined marketAddress) (ret (sdk := sdk) a).
Proof. intros st r st' [= _ <-]. apply confined_refl. Qed.

Lemma keeps_throw {A : Type} (message : string) :
  respects (confined marketAddress) (throw (sdk := sdk) (A := A) message).
Proof. intros st r st' [= _ <-]. apply confined_refl. Qed.

Lemma keeps_liftRes {A : Type} (r : Res A) :
  respects (confined marketAddress) (liftRes (sdk := sdk) r).
Proof. intros st r0 st' [= _ <-]. apply confined_refl. Qed.

Lemma keeps_getThis : respects (confined marketAddress) (getThis sdk).
Proof. intros st r st' [= _ <-]. apply confined_refl. Qed.

Lemma keeps_now : respects (confined marketAddress) (now sdk).
Proof. intros st r st' [= _ <-]. apply confined_refl. Qed.

Lemma keeps_bind {A B : Type} (m : M sdk A) (k : A -> M sdk B) :
  respects (confined marketAddress) m ->
  (forall a, respects (confined marketAddress) (k a)) ->
  respects (confined marketAddress) (bind m k).
Proof.
  intros Hm Hk st r st' H.
  apply bind_inv in H as [(a & st1 & H1 & H2) | (message & H1 & _)].
  - eapply confined_trans; [eapply Hm | eapply Hk]; eassumption.
  - eapply Hm; eassumption.
Qed.

Lemma keeps_tryCatch {A : Type} (body : M sdk A)
    (handler : string -> M sdk A) :
  respects (confined marketAddress) body ->
  (forall message, respects (confined marketAddress) (handler message)) ->
  respects (confined marketAddress) (tryCatch body handler).
Proof.
  intros Hb Hh st r st' H.
  apply tryCatch_inv in H as [(a & H1 & _) | (message & st1 & H1 & H2)].
  - eapply Hb; eassumption.
  - eapply confined_trans; [eapply Hb | eapply Hh]; eassumption.
Qed.

Lemma keeps_rpc {A : Type} (call : Call sdk)
    (request : World sdk -> Res A * World sdk) :
  respects (confined marketAddress) (rpc call request).
Proof.
  intros st r st' H. apply rpc_inv in H as (w & _ & ->). repeat split.
Qed.

Lemma keeps_build {A : Type} (call : Call sdk) (r : Res A) :
  respects (confined marketAddress) (build call r).
Proof. intros st r0 st' [= _ <-]. repeat split. Qed.

Lemma keeps_promiseAll2 {A B : Type} (a : M sdk A) (b : M sdk B) :
  respects (confined marketAddress) a ->
  respects (confined marketAddress) b ->
  respects (confined marketAddress) (promiseAll2 a b).
Proof.
  intros Ha Hb st r st' H. unfold promiseAll2 in H.
  destruct (a st) as [ra st1] eqn:Ea. destruct (b st1) as [rb st2] eqn:Eb.
  assert (st' = st2) as -> by (destruct ra, rb; now inversion H).
  eapply confined_trans; [eapply Ha | eapply Hb]; eassumption.
Qed.

Lemma keeps_forEach {A B : Type} (body : A -> M sdk B) (items : list A) :
  (forall item, respects (confined marketAddress) (body item)) ->
  respects (confined marketAddress) (forEach body items).
Proof.
  intros Hbody. induction items as [| item rest IH]; simpl.
  - apply keeps_ret.
  - apply keeps_bind; [apply Hbody | intros b].
    apply keeps_bind; [exact IH | intros bs]. apply keeps_ret.
Qed.

Lemma keeps_firstAddress
    (accounts : list (OpenOrdersAccount.t (PublicKey sdk))) :
  respects (confined marketAddress) (firstAddress sdk accounts).
Proof. destruct accounts; [apply keeps_throw | apply keeps_ret]. Qed.

Lemma keeps_getMarket :
  respects (confined marketAddress) (getMarket sdk marketAddress).
Proof.
  intros st r st' H.
  destruct (marketCache (this st) !! marketAddress) as [market |] eqn:E.
  - rewrite (getMarket_hit _ _ _ E) in H. inversion H. apply confined_refl.
  - rewrite (getMarket_miss _ _ E) in H.
    destruct (new_PublicKey sdk marketAddress) as [marketPubkey | message];
      [| inversion H; apply confined_refl].
    simpl in H.
    destruct (Market_load sdk _ _ _ _) as [[market | message] w];
      inversion H; subst; repeat split.
    intros other Hne. simpl. now apply lookup_insert_ne.
Qed.

End Confined.

Ltac keeps_step :=
  first
    [ apply keeps_ret | apply keeps_throw | apply keeps_liftRes
    | apply keeps_getThis | apply keeps_now | apply keeps_firstAddress
    | apply keeps_getMarket
    | apply keeps_bind | apply keeps_tryCatch
    | apply keeps_promiseAll2 | apply keeps_forEach
    | apply keeps_rpc | apply keeps_build
    | match goal with
      | |- forall _, _ => intro
      | |- respects _ (match ?x with _ => _ end) => destruct x
      | |- respects _ (let _ := _ in _) => cbv zeta
      end ].

Section ConfinedOperations.

Context {sdk : Sdk}.

Lemma keeps_getOrderBook (marketAddress : string) (depth : option Z) :
  respects (confined marketAddress) (getOrderBook sdk marketAddress depth).
Proof. unfold getOrderBook. repeat keeps_step. Qed.

Lemma keeps_getRecentTrades (marketAddress : string) (limit : option Z) :
  respects (confined marketAddress)
    (getRecentTrades sdk marketAddress limit).
Proof. unfold getRecentTrades. repeat keeps_step. Qed.

Lemma keeps_placeLimitOrder (params : LimitOrder.t (Wallet sdk)) :
  respects (confined (LimitOrder.marketAddress params))
    (placeLimitOrder sdk params).
Proof. unfold placeLimitOrder. repeat keeps_step. Qed.

Lemma perform_confined (op : Operation sdk) (st : State sdk) :
  confined (addressOf op) st (perform sdk op st).
Proof.
  destruct op; simpl;
    match goal with
    | |- confined _ ?st (snd (?m ?st)) =>
        destruct (m st) as [r st'] eqn:E; simpl; revert E
    end.
  - apply keeps_getMarket.
  - apply keeps_getOrderBook.
  - apply keeps_placeLimitOrder.
  - unfold placeMarketOrder.
    repeat first [apply keeps_getOrderBook
                 | apply (keeps_placeLimitOrder
                            (LimitOrder.mk (MarketOrder.marketAddress params)
                               _ _ _ _ _ _ _))
                 | keeps_step].
  - unfold cancelOrder. repeat keeps_step.
  - unfold settleFunds, settleInstruction. repeat keeps_step.
  - unfold getOpenOrders. repeat keeps_step.
  - apply keeps_getRecentTrades.
  - unfold getMarketStats.
    repeat first [apply keeps_getOrderBook | apply keeps_getRecentTrades
                 | keeps_step].
Qed.

End ConfinedOperations.

(** X21.  No sequence of calls changes the connection, the program id or
    the fee-discount key of an instance, and the market cache changes
    only at the addresses the calls were made for: the entry of any other
    address, present or absent, stays as it was. *)
Theorem calls_leave_other_markets_alone (sdk : Sdk)
    (ops : list (Operation sdk)) (st : State sdk) :
  let st' := performAll sdk ops st in
  connection (this st') = connection (this st)
  /\ marketProgramId (this st') = marketProgramId (this st)
  /\ feeDiscountPubkey (this st') = feeDiscountPubkey (this st)
  /\ forall other,
       ~ In other (map addressOf ops) ->
       marketCache (this st') !! other = marketCache (this st) !! other.
Proof.
  revert st. induction ops as [| op ops IH]; intros st.
  - repeat split.
  - change (performAll sdk (op :: ops) st)
      with (performAll sdk ops (perform sdk op st)).
    cbv zeta in *.
    destruct (IH (perform sdk op st)) as (Ha & Hb & Hc & Hd).
    destruct (perform_confined op st) as (Ha' & Hb' & Hc' & Hd').
    repeat split; try congruence.
    intros other Hnot. simpl in Hnot.
    rewrite Hd, Hd'; [reflexivity | |]; intuition.
Qed.

(** ** Owners without an account *)

Section MissingAccounts.
Context {sdk : Sdk}.

(** X22.  [cancelOrder] without a given address, for an owner who has
    no open-orders account: it resolves to [{ success: false, error }]
    right after the lookup; no cancel instruction is built and no
    transaction is sent. *)
Theorem cancelOrder_without_account (params : Cancel.t (Wallet sdk))
    (st st1 : State sdk) (market : Market sdk) (w : World sdk) :
  truthy (Cancel.openOrdersAddress params) = false ->
  getMarket sdk (Cancel.marketAddress params) st = (Ok market, st1) ->
  findOpenOrdersAccountsForOwner sdk market (connection (this st1))
    (publicKey sdk (Cancel.wallet params)) (world st1)
  = (Ok [], w) ->
  exists message,
    cancelOrder sdk params st
    = (Ok (Failure message),
       mkState (this st1) w
         (calls st1
          ++ [CallFindOpenOrdersAccountsForOwner sdk market
                (connection (this st1))
                (publicKey sdk (Cancel.wallet params))])).
Proof.
  intros Haddress Hmarket Hfind. eexists. unfold cancelOrder.
  rewrite Haddress.
  erewrite tryCatch_Throw; [reflexivity |].
  erewrite bind_Ok by exact Hmarket.
  unfold bind at 1. unfold getThis.
  unfold bind at 1. unfold bind at 1. unfold rpc. rewrite Hfind.
  reflexivity.
Qed.

(** X23.  A failed [placeLimitOrder] may have sent a transaction: when
    the owner has no open-orders account and the lookup that follows the
    confirmed creation still finds none, the call resolves to [{ success:
    false, error }] after the create-account transaction has been sent
    and confirmed; no order instruction is built. *)
Theorem placeLimitOrder_account_still_missing
    (params : LimitOrder.t (Wallet sdk)) (st st1 : State sdk)
    (market : Market sdk) (create : Instruction sdk) (createTxid : string)
    (w wa wb wc wd : World sdk) :
  let wallet := LimitOrder.wallet params in
  let conn := connection (this st1) in
  let find :=
    CallFindOpenOrdersAccountsForOwner sdk market conn
      (publicKey sdk wallet) in
  getMarket sdk (LimitOrder.marketAddress params) st = (Ok market, st1) ->
  findOpenOrdersAccountsForOwner sdk market conn (publicKey sdk wallet)
    (world st1)
  = (Ok [], w) ->
  makeCreateAccountTransaction sdk conn (Market_address sdk market)
    (publicKey sdk wallet) (marketProgramId (this st1)) w
  = (Ok create, wa) ->
  sendTransaction sdk conn [create] [wallet] false "processed" wa
  = (Ok createTxid, wb) ->
  confirmTransaction sdk conn createTxid wb = (Ok tt, wc) ->
  findOpenOrdersAccountsForOwner sdk market conn (publicKey sdk wallet) wc
  = (Ok [], wd) ->
  exists message,
    placeLimitOrder sdk params st
    = (Ok (Failure message),
       mkState (this st1) wd
         (calls st1
          ++ [find;
              CallMakeCreateAccountTransaction sdk conn
                (Market_address sdk market) (publicKey sdk wallet)
                (marketProgramId (this st1));
              CallSendTransaction sdk conn [create] [wallet] false
                "processed";
              CallConfirmTransaction sdk conn createTxid;
              find])).
Proof.
  intros wallet conn find Hmarket Hfind Hcreate Hsend Hconfirm Hagain.
  eexists. unfold placeLimitOrder.
  erewrite tryCatch_Throw; [reflexivity |].
  erewrite bind_Ok by exact Hmarket.
  unfold bind at 1. unfold getThis.
  unfold bind at 1. unfold rpc at 1. fold conn. fold wallet. rewrite Hfind.
  unfold bind at 1. unfold bind at 1. unfold rpc at 1. simpl.
  rewrite Hcreate.
  unfold bind at 1. unfold rpc at 1. simpl. rewrite Hsend.
  unfold bind at 1. unfold rpc at 1. simpl. rewrite Hconfirm.
  unfold rpc at 1. simpl. rewrite Hagain. simpl.
  unfold find. rewrite <- !app_assoc. reflexivity.
Qed.

End MissingAccounts.

(** ** The further properties on the demonstration market *)




Lemma getMarketStats_high_low_witness :
  let stats :=
    marketStats "SOL/USDC" Demo.book Demo.trades
      1700000001003 1700000001004 in
  Stats.low24h stats <= 100 /\ 110 <= Stats.high24h stats.
Proof.
  destruct (getMarketStats_high_low "SOL/USDC" Demo.book Demo.trades
              1700000001003 1700000001004) as [_ Hsome].
  assert (In (Trade.mk 110 2 "buy" 1700000000000 (1 # 100) "SOL/USDC")
            Demo.trades
          /\ (1700000001003 - 86400000
              <= Trade.time
                   (Trade.mk 110 2 "buy" 1700000000000 (1 # 100)
                      "SOL/USDC"))%Z) as Hfirst.
  { split; [left; reflexivity | vm_compute; discriminate]. }
  assert (In (Trade.mk 100 3 "sell" 1699990000000 (1 # 100) "SOL/USDC")
            Demo.trades
          /\ (1700000001003 - 86400000
              <= Trade.time
                   (Trade.mk 100 3 "sell" 1699990000000 (1 # 100)
                      "SOL/USDC"))%Z) as Hsecond.
  { split; [right; left; reflexivity | vm_compute; discriminate]. }
  destruct (Hsome (ex_intro _ _ Hfirst)) as (_ & _ & Hall).
  split.
  - exact (proj1 (Hall _ Hsecond)).
  - exact (proj2 (Hall _ Hfirst)).
Defined.



Lemma getOrderBook_spread_sign_witness :
  0 <= OrderBook.spread Demo.book
  /\ 0 <= OrderBook.spreadPercentage Demo.book.
Proof.
  assert (getOrderBook Demo.sdk "SOL/USDC" None Demo.start
          = (Ok Demo.book, Demo.afterBook)) as Hrun
      by (vm_compute; reflexivity).
  assert (0 < bestPrice (OrderBook.bids Demo.book)) as Hbid by reflexivity.
  destruct (getOrderBook_spread_sign Demo.sdk "SOL/USDC" None Demo.start
              Demo.afterBook Demo.book Hrun Hbid) as (_ & _ & Huncrossed).
  apply Huncrossed. vm_compute. discriminate.
Defined.

Lemma queries_only_read_witness :
  exists issued,
    calls
      (performAll Demo.sdk
         [OpGetMarketStats Demo.sdk "SOL/USDC";
          OpGetOpenOrders Demo.sdk (OpenOrdersQuery.mk "THIN" "alice");
          OpGetRecentTrades Demo.sdk "UNLISTED" None]
         Demo.start)
    = calls Demo.start ++ issued
    /\ Forall (fun call => isRead call = true) issued.
Proof.
  apply (queries_only_read Demo.sdk
           [OpGetMarketStats Demo.sdk "SOL/USDC";
            OpGetOpenOrders Demo.sdk (OpenOrdersQuery.mk "THIN" "alice");
            OpGetRecentTrades Demo.sdk "UNLISTED" None]
           Demo.start).
  reflexivity.
Defined.


Lemma failed_market_load_propagates_witness :
  getOrderBook Demo.sdk "UNLISTED" (Some 5%Z) Demo.start
  = (Throw
       "Failed to fetch order book: Failed to load market: Market not found",
     snd (getMarket Demo.sdk "UNLISTED" Demo.start))
  /\ getMarketStats Demo.sdk "UNLISTED" Demo.start
     = (Throw
          ("Failed to fetch market stats: "
           ++ "Failed to load market: Market not found")%string,
        snd (getMarket Demo.sdk "UNLISTED" Demo.start)).
Proof.
  assert (getMarket Demo.sdk "UNLISTED" Demo.start
          = (Throw "Failed to load market: Market not found",
             snd (getMarket Demo.sdk "UNLISTED" Demo.start))) as Hfail
      by (vm_compute; reflexivity).
  destruct (failed_market_load_propagates Demo.sdk "UNLISTED" Demo.start
              _ _ Hfail) as (Hbook & _ & _ & Hstats).
  split; [exact (Hbook (Some 5%Z)) | exact Hstats].
Defined.


Lemma placeLimitOrder_instruction_witness :
  exists before market args instruction conn,
    calls (snd (placeLimitOrder Demo.newcomer Demo.firstOrder Demo.arrival))
    = before
      ++ [CallMakePlaceOrderInstruction Demo.newcomer market args;
          CallSendTransaction Demo.newcomer conn [instruction]
            [LimitOrder.wallet Demo.firstOrder] false "confirmed"]
    /\ PlaceOrderArgs.payer args = PlaceOrderArgs.openOrdersAddressKey args
    /\ PlaceOrderArgs.orderType args = "limit"
    /\ clientIdArgument Demo.newcomer (Some "42")
         (PlaceOrderArgs.clientId args).
Proof.
  assert (placeLimitOrder Demo.newcomer Demo.firstOrder Demo.arrival
          = (Ok (Success "txid"
                   (Placed.mk "SOL/USDC" "sell" (Fin 103) (Fin 1) "limit"
                      (Some "42"))),
             snd (placeLimitOrder Demo.newcomer Demo.firstOrder
                    Demo.arrival))) as Hrun
      by (vm_compute; reflexivity).
  destruct (placeLimitOrder_instruction Demo.firstOrder Demo.arrival _ _ _
              Hrun)
    as (before & market & args & instruction & conn & Hcalls & _ & _
        & Hpayer & _ & _ & _ & Htype & Hid & _).
  exists before, market, args, instruction, conn.
  repeat split; assumption.
Defined.

Lemma placeLimitOrder_account_protocol_witness :
  (exists market args instruction,
     calls (snd (placeLimitOrder Demo.sdk Demo.bid Demo.start))
     = calls (snd (getMarket Demo.sdk "SOL/USDC" Demo.start))
       ++ [CallFindOpenOrdersAccountsForOwner Demo.sdk market
             "https://api.mainnet-beta.solana.com" "alice";
           CallMakePlaceOrderInstruction Demo.sdk market args;
           CallSendTransaction Demo.sdk
             "https://api.mainnet-beta.solana.com" [instruction] ["alice"]
             false "confirmed"])
  /\ exists market account args instruction,
       PlaceOrderArgs.openOrdersAddressKey args
       = OpenOrdersAccount.address account
       /\ calls (snd (placeLimitOrder Demo.newcomer Demo.firstOrder
                        Demo.arrival))
          = calls (snd (getMarket Demo.newcomer "SOL/USDC" Demo.arrival))
            ++ [CallFindOpenOrdersAccountsForOwner Demo.newcomer market
                  "https://api.mainnet-beta.solana.com" "bob";
                CallMakeCreateAccountTransaction Demo.newcomer
                  "https://api.mainnet-beta.solana.com" "SOL/USDC" "bob"
                  "9xQeWvG816bUx9EPjHmaT23yvVM2ZWbrrpZb9PusVFin";
                CallSendTransaction Demo.newcomer
                  "https://api.mainnet-beta.solana.com" ["createAccount"]
                  ["bob"] false "processed";
                CallConfirmTransaction Demo.newcomer
                  "https://api.mainnet-beta.solana.com" "txid";
                CallFindOpenOrdersAccountsForOwner Demo.newcomer market
                  "https://api.mainnet-beta.solana.com" "bob"]
            ++ [CallMakePlaceOrderInstruction Demo.newcomer market args;
                CallSendTransaction Demo.newcomer
                  "https://api.mainnet-beta.solana.com" [instruction]
                  ["bob"] false "confirmed"].
Proof.
  split.
  - assert (placeLimitOrder Demo.sdk Demo.bid Demo.start
            = (Ok (Success "txid"
                     (Placed.mk "SOL/USDC" "buy" (Fin 99) (Fin 2) "limit"
                        None)),
               snd (placeLimitOrder Demo.sdk Demo.bid Demo.start))) as Hrun
        by (vm_compute; reflexivity).
    destruct (placeLimitOrder_account_protocol Demo.bid Demo.start _ _ _
                Hrun)
      as (market & st1 & account & args & instruction & Hmarket & _
          & [(others & w & _ & Hcalls)
            | (create & createTxid & others & w & wa & wb & wc & wd
               & Hnone & _)]);
      assert (st1 = snd (getMarket Demo.sdk "SOL/USDC" Demo.start)) as Hst1
        by (change "SOL/USDC" with (LimitOrder.marketAddress Demo.bid);
            rewrite Hmarket; reflexivity);
      subst st1.
    + exists market, args, instruction. exact Hcalls.
    + exfalso. vm_compute in Hnone. discriminate.
  - assert (placeLimitOrder Demo.newcomer Demo.firstOrder Demo.arrival
            = (Ok (Success "txid"
                     (Placed.mk "SOL/USDC" "sell" (Fin 103) (Fin 1) "limit"
                        (Some "42"))),
               snd (placeLimitOrder Demo.newcomer Demo.firstOrder
                      Demo.arrival))) as Hrun
        by (vm_compute; reflexivity).
    assert (getMarket Demo.newcomer "SOL/USDC" Demo.arrival
            = (Ok "SOL/USDC",
               snd (getMarket Demo.newcomer "SOL/USDC" Demo.arrival)))
      as Hloaded by (vm_compute; reflexivity).
    destruct (placeLimitOrder_account_protocol Demo.firstOrder
                Demo.arrival _ _ _ Hrun)
      as (market & st1 & account & args & instruction & Hmarket & Hkey
          & [(others & w & Hsome & _)
            | (create & createTxid & others & w & wa & wb & wc & wd
               & _ & Hcreate & Hsend & _ & _ & Hcalls)]);
      change (LimitOrder.marketAddress Demo.firstOrder) with "SOL/USDC"
        in Hmarket;
      rewrite Hloaded in Hmarket;
      injection Hmarket as <- <-.
    + exfalso. vm_compute in Hsome. discriminate.
    + exists "SOL/USDC", account, args, instruction.
      split; [exact Hkey |].
      assert (create = "createAccount") as <-
          by (vm_compute in Hcreate; congruence).
      assert (createTxid = "txid") as <-
          by (vm_compute in Hsend; congruence).
      exact Hcalls.
Defined.

Lemma cancelOrder_account_witness :
  exists market openOrders orderIdBN instruction,
    new_PublicKey Demo.sdk "alice-open-orders" = Ok openOrders
    /\ calls (snd (cancelOrder Demo.sdk Demo.cancel Demo.start))
       = calls (snd (getMarket Demo.sdk "SOL/USDC" Demo.start))
         ++ [CallMakeCancelOrderInstruction Demo.sdk market
               (CancelOrderArgs.mk "alice" openOrders orderIdBN "buy");
             CallSendTransaction Demo.sdk
               "https://api.mainnet-beta.solana.com" [instruction]
               ["alice"] false "confirmed"].
Proof.
  assert (cancelOrder Demo.sdk Demo.cancel Demo.start
          = (Ok (Success "txid" (Cancelled.mk "SOL/USDC" "7")),
             snd (cancelOrder Demo.sdk Demo.cancel Demo.start))) as Hrun
      by (vm_compute; reflexivity).
  destruct (cancelOrder_account Demo.cancel Demo.start _ _ _ Hrun)
    as (market & st1 & openOrders & orderIdBN & instruction & Hmarket & _ & _
        & [(_ & Hkey & Hcalls) | (Hfalsy & _)]).
  - exists market, openOrders, orderIdBN, instruction.
    assert (st1 = snd (getMarket Demo.sdk "SOL/USDC" Demo.start)) as Hst1
        by (change "SOL/USDC" with (Cancel.marketAddress Demo.cancel);
            rewrite Hmarket; reflexivity).
    subst st1.
    split; [exact Hkey | exact Hcalls].
  - exfalso. vm_compute in Hfalsy. discriminate.
Defined.

Lemma settleFunds_without_account_witness :
  fst (settleFunds Demo.newcomer Demo.firstSettle Demo.arrival)
  = Ok (Failure "No open orders account found").
Proof.
  assert (truthy (Settle.openOrdersAddress Demo.firstSettle) = false)
    as Hfalsy by reflexivity.
  assert (getMarket Demo.newcomer
            (Settle.marketAddress Demo.firstSettle) Demo.arrival
          = (Ok "SOL/USDC",
             snd (getMarket Demo.newcomer "SOL/USDC" Demo.arrival)))
    as Hmarket by (vm_compute; reflexivity).
  assert (findOpenOrdersAccountsForOwner Demo.newcomer "SOL/USDC"
            (connection
               (this (snd (getMarket Demo.newcomer "SOL/USDC"
                             Demo.arrival))))
            (publicKey Demo.newcomer (Settle.wallet Demo.firstSettle))
            (world (snd (getMarket Demo.newcomer "SOL/USDC" Demo.arrival)))
          = (Ok [], 1700000001002%Z)) as Hnone
      by (vm_compute; reflexivity).
  rewrite (settleFunds_without_account Demo.firstSettle Demo.arrival _ _ _
             Hfalsy Hmarket Hnone).
  reflexivity.
Defined.

Lemma settleFunds_one_instruction_per_account_witness :
  exists market accounts transaction,
    accounts = [OpenOrdersAccount.mk "alice"]
    /\ length transaction = 1%nat
    /\ calls (snd (settleFunds Demo.sdk Demo.settle Demo.start))
       = calls (snd (getMarket Demo.sdk "SOL/USDC" Demo.start))
         ++ [CallFindOpenOrdersAccountsForOwner Demo.sdk market
               "https://api.mainnet-beta.solana.com" "alice"]
         ++ [CallMakeSettleFundsTransaction Demo.sdk market
               "https://api.mainnet-beta.solana.com"
               (OpenOrdersAccount.mk "alice") "alice" "alice"]
         ++ [CallSendTransaction Demo.sdk
               "https://api.mainnet-beta.solana.com" transaction ["alice"]
               false "confirmed"].
Proof.
  assert (settleFunds Demo.sdk Demo.settle Demo.start
          = (Ok (Success "txid" (Settled.mk "SOL/USDC")),
             snd (settleFunds Demo.sdk Demo.settle Demo.start))) as Hrun
      by (vm_compute; reflexivity).
  destruct (settleFunds_one_instruction_per_account Demo.settle Demo.start
              _ _ _ Hrun)
    as (market & st1 & accounts & transaction & lookup & Hmarket & _ & _
        & Hlength & Hcalls
        & [(Htruthy & _) | (_ & Hlookup & w & Hfind)]).
  - exfalso. vm_compute in Htruthy. discriminate.
  - exists market, accounts, transaction.
    assert (st1 = snd (getMarket Demo.sdk "SOL/USDC" Demo.start)) as Hst1
        by (change "SOL/USDC" with (Settle.marketAddress Demo.settle);
            rewrite Hmarket; reflexivity).
    assert (accounts = [OpenOrdersAccount.mk "alice"]) as Haccounts
        by (vm_compute in Hfind; congruence).
    split; [exact Haccounts |].
    split; [rewrite Hlength, Haccounts; reflexivity |].
    rewrite Hcalls, Hlookup, Haccounts, Hst1. reflexivity.
Defined.



Lemma placeMarketOrder_of_size_zero_witness :
  placeMarketOrder Demo.sdk Demo.buy0 Demo.start
  = placeLimitOrder Demo.sdk
      (LimitOrder.mk "SOL/USDC" "alice" "buy" NaN (Fin 0) (Some "ioc") None
         None)
      Demo.afterBook
  /\ fst (placeMarketOrder Demo.sdk Demo.buy0 Demo.start)
     = Ok (Failure "Invalid price").
Proof.
  assert (getOrderBook Demo.sdk (MarketOrder.marketAddress Demo.buy0) None
            Demo.start
          = (Ok Demo.book, Demo.afterBook)) as Hbook
      by (vm_compute; reflexivity).
  assert (Forall (fun order => 0 <= Item.size order)
            (opposing (MarketOrder.side Demo.buy0) Demo.book)) as Hsizes
      by (repeat constructor; vm_compute; discriminate).
  assert (MarketOrder.size Demo.buy0 == 0) as Hzero by reflexivity.
  pose proof (placeMarketOrder_of_size_zero Demo.buy0 Demo.start
                Demo.afterBook Demo.book Hbook Hsizes Hzero) as Hplaced.
  split; [exact Hplaced |].
  rewrite Hplaced. vm_compute. reflexivity.
Defined.

Lemma getMarketStats_sources_witness :
  exists stats,
    fst (getMarketStats Demo.sdk "SOL/USDC" Demo.start) = Ok stats
    /\ Stats.volume24h stats == volumeInWindow 1700000001007 Demo.trades
    /\ Stats.spread stats = Stats.bestAsk stats - Stats.bestBid stats.
Proof.
  assert (exists stats,
            getMarketStats Demo.sdk "SOL/USDC" Demo.start
            = (Ok stats,
               snd (getMarketStats Demo.sdk "SOL/USDC" Demo.start)))
    as [stats Hrun] by (eexists; vm_compute; reflexivity).
  destruct (getMarketStats_sources "SOL/USDC" Demo.start _ stats Hrun)
    as (market & st0 & orderBook & st1 & fills & _ & _ & Hfills & Hvolume
        & _ & _ & _ & _ & Hspread).
  exists stats.
  split; [rewrite Hrun; reflexivity |].
  split; [| exact Hspread].
  simpl in Hfills. injection Hfills as <- _.
  exact Hvolume.
Defined.

Lemma calls_leave_other_markets_alone_witness :
  marketCache (this (performAll Demo.sdk Demo.session Demo.afterBook))
  !! "THAT" = None
  /\ connection (this (performAll Demo.sdk Demo.session Demo.afterBook))
     = "https://api.mainnet-beta.solana.com".
Proof.
  destruct (calls_leave_other_markets_alone Demo.sdk Demo.session
              Demo.afterBook) as (Hconn & _ & _ & Hcache).
  split.
  - rewrite Hcache; [reflexivity |].
    simpl. intros [H | [H | [H | [H | []]]]]; discriminate.
  - rewrite Hconn. reflexivity.
Defined.

Lemma cancelOrder_without_account_witness :
  exists message,
    cancelOrder Demo.newcomer Demo.firstCancel Demo.arrival
    = (Ok (Failure message),
       mkState
         (this (snd (getMarket Demo.newcomer "SOL/USDC" Demo.arrival)))
         1700000001002%Z
         (calls (snd (getMarket Demo.newcomer "SOL/USDC" Demo.arrival))
          ++ [CallFindOpenOrdersAccountsForOwner Demo.newcomer "SOL/USDC"
                "https://api.mainnet-beta.solana.com" "bob"])).
Proof.
  assert (truthy (Cancel.openOrdersAddress Demo.firstCancel) = false)
    as Hfalsy by reflexivity.
  assert (getMarket Demo.newcomer
            (Cancel.marketAddress Demo.firstCancel) Demo.arrival
          = (Ok "SOL/USDC",
             snd (getMarket Demo.newcomer "SOL/USDC" Demo.arrival)))
    as Hmarket by (vm_compute; reflexivity).
  assert (findOpenOrdersAccountsForOwner Demo.newcomer "SOL/USDC"
            (connection
               (this (snd (getMarket Demo.newcomer "SOL/USDC"
                             Demo.arrival))))
            (publicKey Demo.newcomer (Cancel.wallet Demo.firstCancel))
            (world (snd (getMarket Demo.newcomer "SOL/USDC" Demo.arrival)))
          = (Ok [], 1700000001002%Z)) as Hnone
      by (vm_compute; reflexivity).
  exact (cancelOrder_without_account Demo.firstCancel Demo.arrival _ _ _
           Hfalsy Hmarket Hnone).
Defined.

Lemma placeLimitOrder_account_still_missing_witness :
  exists message,
    fst (placeLimitOrder Demo.newcomer Demo.firstOrder Demo.tooEarly)
    = Ok (Failure message)
    /\ In (CallSendTransaction Demo.newcomer
             "https://api.mainnet-beta.solana.com" ["createAccount"] ["bob"]
             false "processed")
          (calls (snd (placeLimitOrder Demo.newcomer Demo.firstOrder
                         Demo.tooEarly))).
Proof.
  assert (getMarket Demo.newcomer
            (LimitOrder.marketAddress Demo.firstOrder) Demo.tooEarly
          = (Ok "SOL/USDC",
             snd (getMarket Demo.newcomer "SOL/USDC" Demo.tooEarly)))
    as Hmarket by (vm_compute; reflexivity).
  destruct (placeLimitOrder_account_still_missing Demo.firstOrder
              Demo.tooEarly
              (snd (getMarket Demo.newcomer "SOL/USDC" Demo.tooEarly))
              "SOL/USDC" "createAccount" "txid"
              1700000000998%Z 1700000000999%Z 1700000001000%Z
              1700000001001%Z 1700000001002%Z Hmarket
              ltac:(vm_compute; reflexivity) ltac:(vm_compute; reflexivity)
              ltac:(vm_compute; reflexivity) ltac:(vm_compute; reflexivity)
              ltac:(vm_compute; reflexivity))
    as [message Hrun].
  exists message. rewrite Hrun. split; [reflexivity |].
  simpl. apply in_or_app. right. right. right. left. reflexivity.
Defined.
